(** * runc-fuzzers: the libcontainer and device-rule fuzz harnesses

    A shallow embedding of the Go entry points [FuzzInit], [FuzzStateApi],
    [FuzzFactory] (package libcontainer) and [Fuzz] (package devices).

    The harnesses are straight-line Go with early returns and [defer]; they
    are embedded as state-passing functions over a [World] that holds the
    file system the harness touches, the logger level and the chronological
    list of calls made to the operating system and to the runtime under
    test.  Everything the harnesses call but do not define (the byte-stream
    consumer, the runtime, the path joiner, the JSON encoder) is taken as a
    parameter through the classes [Consumer] and [Runtime]. *)

From Stdlib Require Import ZArith List String Ascii Bool Lia DecimalString.
From Stdlib.Strings Require Import Byte.
From stdpp Require Import base gmap strings list.

Local Open Scope Z_scope.
Local Open Scope string_scope.

(** ** Go values *)

(** A Go [error] value, as far as the harnesses inspect it: they test it
    against [nil] and, once, with [os.IsNotExist]. *)
Inductive error : Type :=
| ErrNotExist (path : string)
| ErrOther (msg : string).

(** A Go [(value, error)] pair: either the value with a [nil] error, or the
    error. *)
Inductive result (A : Type) : Type :=
| Ok (a : A)
| Err (e : error).
Arguments Ok {A} a.
Arguments Err {A} e.

Definition IsNotExist (e : error) : bool :=
  match e with
  | ErrNotExist _ => true
  | ErrOther _ => false
  end.

Definition is_ok {A} (r : result A) : bool :=
  match r with
  | Ok _ => true
  | Err _ => false
  end.

(** [int(b)] for a byte [b]. *)
Definition int_of_byte (b : byte) : Z := Z.of_N (Byte.to_N b).

(** [string(bs)] for a byte slice [bs]. *)
Definition string_of_bytes (bs : list byte) : string := string_of_list_byte bs.

(** ** The file system seen through package os *)

Module GoOS.

Inductive Node : Type :=
| RegularFile (content : list byte)
| Directory.

(** The system calls behind the os functions the harnesses use. *)
Inductive Syscall : Type :=
| SysOpenFile | SysOpen | SysWrite | SysMkdirAll | SysRemoveAll.

(** An [*os.File]. *)
Record OsFile : Type := mkOsFile { fname : string }.

(** The file system is a finite map from paths to nodes. *)
Abbreviation FS := (gmap string Node).

Definition is_file (m : FS) (path : string) : bool :=
  match m !! path with
  | Some (RegularFile _) => true
  | _ => false
  end.

Definition is_dir (m : FS) (path : string) : bool :=
  match m !! path with
  | Some Directory => true
  | _ => false
  end.

(** [is_under dir p]: [p] is [dir] itself or lies below it. *)
Definition is_under (dir p : string) : bool :=
  String.eqb dir p || String.prefix (dir ++ "/") p.

(** The proper ancestors of a path, outermost first:
    [ancestors "/tmp/fuzz-root/fuzz" = ["/tmp"; "/tmp/fuzz-root"]]. *)
Fixpoint ancestors_from (acc rest : string) : list string :=
  match rest with
  | EmptyString => []
  | String c rest' =>
      let tl := ancestors_from (acc ++ String c EmptyString) rest' in
      if Ascii.eqb c "/" && negb (String.eqb acc EmptyString) then acc :: tl else tl
  end.

Definition ancestors (path : string) : list string := ancestors_from EmptyString path.

(** The nodes [MkdirAll path] needs to be directories. *)
Definition chain (path : string) : list string := ancestors path ++ [path].

Definition mkdirs (paths : list string) (m : FS) : FS :=
  foldr (fun p acc => <[p := Directory]> acc) m paths.

Definition remove_tree (path : string) (m : FS) : FS :=
  filter (fun kv : string * Node => negb (is_under path kv.1)) m.

(** What [f.Write(b)] leaves in a file opened without [O_TRUNC] and not
    yet written to: [b] over the first [len(b)] bytes, the old tail
    after them. *)
Definition overwrite (b old : list byte) : list byte :=
  b ++ drop (length b) old.

End GoOS.
Export GoOS.

(** ** Declarations of runc and logrus that the harnesses use

    These types are declared in the runtime under test, not in the
    harness files.  Each record lists the fields the harnesses read or
    write; the other fields of the Go structs are only filled by the
    consumer and handed on to the runtime. *)

(** [logrus.Level]. *)
Inductive Level : Type :=
| PanicLevel | FatalLevel | ErrorLevel | WarnLevel | InfoLevel | DebugLevel
| TraceLevel.

(** [configs.NamespaceType] is a Go string type. *)
Definition NamespaceType : Type := string.
Definition NEWNS : NamespaceType := "NEWNS".
Definition NEWUTS : NamespaceType := "NEWUTS".

(** [configs.Namespace]; the Go field [Type] is [nsType] here. *)
Record Namespace : Type := mkNamespace {
  nsType : NamespaceType;
  Path : string
}.

(** [configs.Cgroup]. *)
Record Cgroup : Type := mkCgroup { Parent : string }.

(** [configs.Config]; [Cgroups] is a pointer, [None] is [nil]. *)
Record Config : Type := mkConfig {
  Rootfs : string;
  Namespaces : list Namespace;
  Cgroups : option Cgroup
}.

(** The two option functions the harness passes to [New]. *)
Inductive CgroupDriver : Type := Cgroupfs | SystemdCgroups.

(** The value of [validate.New()]. *)
Inductive ConfigValidator : Type := validate_New.

(** [LinuxFactory], with the fields [FuzzFactory] sets. *)
Record LinuxFactory : Type := mkLinuxFactory {
  Root : string;
  InitPath : string;
  InitArgs : list string;
  Validator : ConfigValidator;
  CriuPath : string
}.

(** [linuxStandardInit], with the fields [FuzzInit] sets. *)
Record linuxStandardInit (initConfig : Type) : Type := mkLinuxStandardInit {
  pipe : OsFile;
  consoleSocket : OsFile;
  parentPid : Z;
  config : initConfig;
  fifoFd : Z
}.
Arguments mkLinuxStandardInit {initConfig}.
Arguments pipe {initConfig}.
Arguments consoleSocket {initConfig}.
Arguments parentPid {initConfig}.
Arguments config {initConfig}.
Arguments fifoFd {initConfig}.

(** [FuzzState], declared in the harness file. *)
Record FuzzState : Type := mkFuzzState {
  OciVersion : string;
  Id : string;
  Status : string;
  Pid : Z;
  Bundle : string;
  Annotations : list string
}.

(** ** Calls

    Every call a harness makes to package os, to a library or to the
    runtime under test, in the order it is made. *)
Inductive Call (initConfig Factory Container : Type) : Type :=
| OsOpenFile (name : string)
| OsOpen (name : string)
| OsWrite (name : string) (b : list byte)
| OsClose (f : option OsFile)
| OsMkdirAll (path : string)
| OsRemoveAll (path : string)
| CallMarshal (v : FuzzState)
| CallSecureJoin (root unsafePath : string)
| CallInit (l : linuxStandardInit initConfig)
| CallNew (root : string) (driver : CgroupDriver)
| CallCreate (f : Factory) (name : string) (cfg : Config)
| CallDestroy (c : Container)
| CallState (c : Container)
| CallStats (c : Container)
| CallOCIState (c : Container)
| CallProcesses (c : Container)
| CallLoad (f : LinuxFactory) (id : string).
Arguments OsOpenFile {initConfig Factory Container}.
Arguments OsOpen {initConfig Factory Container}.
Arguments OsWrite {initConfig Factory Container}.
Arguments OsClose {initConfig Factory Container}.
Arguments OsMkdirAll {initConfig Factory Container}.
Arguments OsRemoveAll {initConfig Factory Container}.
Arguments CallMarshal {initConfig Factory Container}.
Arguments CallSecureJoin {initConfig Factory Container}.
Arguments CallInit {initConfig Factory Container}.
Arguments CallNew {initConfig Factory Container}.
Arguments CallCreate {initConfig Factory Container}.
Arguments CallDestroy {initConfig Factory Container}.
Arguments CallState {initConfig Factory Container}.
Arguments CallStats {initConfig Factory Container}.
Arguments CallOCIState {initConfig Factory Container}.
Arguments CallProcesses {initConfig Factory Container}.
Arguments CallLoad {initConfig Factory Container}.

(** ** What the harnesses are run against

    [Runtime] collects the runtime under test and the host: the types the
    harness only passes around, the results of the calls whose result the
    harness inspects, which system calls the host refuses, and what a call
    into the runtime does to the file system ([effect]).  Calls whose
    result the harness throws away ([Init], [State], [Load], ...) have no
    result here. *)
Class Runtime : Type := {
  initConfig : Type;
  Factory : Type;
  Container : Type;
  Getppid : Z;
  os_Args0 : string;
  refuses : Syscall -> string -> bool;
  New : FS -> string -> CgroupDriver -> result Factory;
  Create : FS -> Factory -> string -> Config -> result Container;
  json_Marshal : FuzzState -> result (list byte);
  SecureJoin : FS -> string -> string -> result string;
  effect : Call initConfig Factory Container -> FS -> FS
}.

(** [Consumer] is the byte-stream consumer of go-fuzz-headers.  A Go
    method that moves the cursor returns the consumer it leaves behind. *)
Class Consumer : Type := {
  ConsumeFuzzer : Type;
  NewConsumer : list byte -> ConsumeFuzzer;
  GetString : ConsumeFuzzer -> result string * ConsumeFuzzer;
  GetInt : ConsumeFuzzer -> result Z * ConsumeFuzzer
}.

(** [c.GenerateStruct(target)] for the two targets the harnesses pass: a
    zero [initConfig] and a zero [Config].  Both callers drop the error
    it returns, so only the filled struct and the moved consumer are
    kept. *)
Class StructGen `{Runtime} `{Consumer} : Type := {
  GenerateStruct_initConfig : ConsumeFuzzer -> initConfig * ConsumeFuzzer;
  GenerateStruct_Config : ConsumeFuzzer -> Config * ConsumeFuzzer
}.

Record World `{Runtime} : Type := mkWorld {
  fs : FS;
  loglevel : Level;
  calls : list (Call initConfig Factory Container)
}.

(** ** Package os on a [World] *)

Section OS.
Context `{Runtime}.

Definition set_fs (m : FS) (w : World) : World :=
  {| fs := m; loglevel := loglevel w; calls := calls w |}.

(** Append a call to the log. *)
Definition record (e : Call initConfig Factory Container) (w : World) : World :=
  {| fs := fs w; loglevel := loglevel w; calls := calls w ++ [e] |}.

(** A call into the runtime under test: logged, and the file system is
    whatever the runtime leaves. *)
Definition invoke (e : Call initConfig Factory Container) (w : World) : World :=
  {| fs := effect e (fs w); loglevel := loglevel w; calls := calls w ++ [e] |}.

(** [logrus.SetLevel]. *)
Definition SetLevel (l : Level) (w : World) : World :=
  {| fs := fs w; loglevel := l; calls := calls w |}.

(** [defer cleanup] followed by [body]: [cleanup] runs when the function
    returns, whatever [body] returned, and its own result is dropped. *)
Definition defer {A B : Type} (cleanup : World -> B * World)
    (body : World -> A * World) (w : World) : A * World :=
  let (r, w1) := body w in (r, snd (cleanup w1)).

(** [os.OpenFile(name, os.O_RDWR|os.O_CREATE, 0755)]. *)
Definition OpenFile (name : string) (w : World) : result OsFile * World :=
  let w := record (OsOpenFile name) w in
  if refuses SysOpenFile name then (Err (ErrOther "permission denied"), w)
  else match fs w !! name with
       | Some Directory => (Err (ErrOther "is a directory"), w)
       | Some (RegularFile _) => (Ok (mkOsFile name), w)
       | None => (Ok (mkOsFile name), set_fs (<[name := RegularFile []]> (fs w)) w)
       end.

(** [os.Open(name)]. *)
Definition Open (name : string) (w : World) : result OsFile * World :=
  let w := record (OsOpen name) w in
  match fs w !! name with
  | None => (Err (ErrNotExist name), w)
  | Some _ =>
      if refuses SysOpen name then (Err (ErrOther "permission denied"), w)
      else (Ok (mkOsFile name), w)
  end.

(** [f.Write(b)] on a file that was just opened. *)
Definition Write (f : OsFile) (b : list byte) (w : World) : result Z * World :=
  let w := record (OsWrite (fname f) b) w in
  if refuses SysWrite (fname f) then (Err (ErrOther "no space left on device"), w)
  else match fs w !! fname f with
       | Some (RegularFile old) =>
           (Ok (Z.of_nat (length b)),
            set_fs (<[fname f := RegularFile (overwrite b old)]> (fs w)) w)
       | _ => (Err (ErrOther "bad file descriptor"), w)
       end.

(** [f.Close()]; [f] is [None] for a nil [*os.File]. *)
Definition Close (f : option OsFile) (w : World) : result unit * World :=
  let w := record (OsClose f) w in
  match f with
  | Some _ => (Ok tt, w)
  | None => (Err (ErrOther "invalid argument"), w)
  end.

(** [os.MkdirAll(path, perm)]. *)
Definition MkdirAll (path : string) (w : World) : result unit * World :=
  let w := record (OsMkdirAll path) w in
  if refuses SysMkdirAll path then (Err (ErrOther "permission denied"), w)
  else if existsb (is_file (fs w)) (chain path)
       then (Err (ErrOther "not a directory"), w)
       else (Ok tt, set_fs (mkdirs (chain path) (fs w)) w).

(** [os.RemoveAll(path)]. *)
Definition RemoveAll (path : string) (w : World) : result unit * World :=
  let w := record (OsRemoveAll path) w in
  if refuses SysRemoveAll path then (Err (ErrOther "permission denied"), w)
  else (Ok tt, set_fs (remove_tree path (fs w)) w).

End OS.

(** ** The harnesses of package libcontainer *)

Section Libcontainer.
Context `{StructGen}.

(** [len(s)] of a Go string: its number of bytes. *)
Definition len (s : string) : Z := Z.of_nat (String.length s).

(** The namespace branch of [FuzzStateApi]:
    [if (ns % 3) == 0 {...} else if (ns % 4) == 0 {...} else {...}].
    Go's [%] truncates towards zero, as [Z.rem] does. *)
Definition addNamespaces (ns : Z) (cfg : Config) : Config :=
  if (Z.rem ns 3 =? 0)%Z then
    {| Rootfs := Rootfs cfg;
       Namespaces := [ {| nsType := NEWUTS; Path := EmptyString |} ];
       Cgroups := Cgroups cfg |}
  else if (Z.rem ns 4 =? 0)%Z then
    {| Rootfs := Rootfs cfg;
       Namespaces := [ {| nsType := NEWNS; Path := EmptyString |} ];
       Cgroups := Cgroups cfg |}
  else
    {| Rootfs := Rootfs cfg; Namespaces := []; Cgroups := Cgroups cfg |}.

(** [config.Cgroups != nil && config.Cgroups.Parent == "system.slice"]. *)
Definition wantsSystemd (cfg : Config) : bool :=
  match Cgroups cfg with
  | Some cg => String.eqb (Parent cg) "system.slice"
  | None => false
  end.

(** [newContainerWithName]: [f] is the file-system factory, replaced by
    the systemd factory when the config asks for it; an error of [New]
    is returned as it is. *)
Definition newContainerWithName (name root : string) (cfg : Config) (w : World)
  : result Container * World :=
  let r := New (fs w) root Cgroupfs in
  let w := invoke (CallNew root Cgroupfs) w in
  match r with
  | Err e => (Err e, w)
  | Ok f =>
      if wantsSystemd cfg then
        let r := New (fs w) root SystemdCgroups in
        let w := invoke (CallNew root SystemdCgroups) w in
        match r with
        | Err e => (Err e, w)
        | Ok f =>
            let r := Create (fs w) f name cfg in
            (r, invoke (CallCreate f name cfg) w)
        end
      else
        let r := Create (fs w) f name cfg in
        (r, invoke (CallCreate f name cfg) w)
  end.

(** [newTestRoot]: the fixed directory, made with [MkdirAll]. *)
Definition newTestRoot (w : World) : result string * World :=
  let dir := "/tmp/fuzzing" in
  match MkdirAll dir w with
  | (Err e, w) => (Err e, w)
  | (Ok _, w) => (Ok dir, w)
  end.

(** [createFiles]: the loop over [files], by recursion on the list.  The
    [defer f.Close()] of an iteration runs when the function returns,
    so it encloses the iterations after it. *)
Fixpoint createFiles (files : list string) (b : list byte) (w : World)
  : result unit * World :=
  match files with
  | [] => (Ok tt, w)
  | file :: rest =>
      match OpenFile file w with
      | (Err _, w) => (Err (ErrOther "Could not create file"), w)
      | (Ok f, w) =>
          defer (Close (Some f))
            (fun w =>
               match Write f b w with
               | (Err _, w) => (Err (ErrOther "Could not write to file"), w)
               | (Ok _, w) => createFiles rest b w
               end) w
      end
  end.

(** [FuzzInit].  The deferred calls enclose what follows them, the one
    registered last innermost.  [data[0]] is in range past the length
    check; the branch for the empty buffer is never taken.  The result
    of [Init] is dropped; what it does to the file system is [effect]. *)
Definition FuzzInit (data : list byte) (w : World) : Z * World :=
  if (length data <? 5)%nat then (-1, w) else
  match OpenFile "pipe.txt" w with
  | (Err _, w) => (-1, w)
  | (Ok pipe, w) =>
  defer (Close (Some pipe)) (defer (RemoveAll "pipe.txt") (fun w =>
  match OpenFile "consoleSocket.txt" w with
  | (Err _, w) => (-1, w)
  | (Ok consoleSocket, w) =>
  defer (Close (Some consoleSocket)) (defer (RemoveAll "consoleSocket.txt") (fun w =>
  let c := NewConsumer data in
  let (config, c) := GenerateStruct_initConfig c in
  let fifoFd := match data with b :: _ => int_of_byte b | [] => 0 end in
  let l := {| pipe := pipe;
              consoleSocket := consoleSocket;
              parentPid := Getppid;
              config := config;
              fifoFd := fifoFd |} in
  let w := invoke (CallInit l) w in
  (1, w))) w
  end)) w
  end.

(** The bootstrap context [FuzzInit] builds when both scratch files are
    open: the struct literal [&linuxStandardInit{...}] of the source. *)
Definition initContext (data : list byte) : linuxStandardInit initConfig :=
  {| pipe := mkOsFile "pipe.txt";
     consoleSocket := mkOsFile "consoleSocket.txt";
     parentPid := Getppid;
     config := fst (GenerateStruct_initConfig (NewConsumer data));
     fifoFd := match data with b :: _ => int_of_byte b | [] => 0 end |}.

(** [FuzzStateApi].  The errors of [GenerateStruct], of the four queries
    and of [Destroy] are dropped, as in the source. *)
Definition FuzzStateApi (data : list byte) (w : World) : Z * World :=
  let w := SetLevel PanicLevel w in
  if (length data <? 4)%nat then (-1, w) else
  match newTestRoot w with
  | (Err _, w) => (-1, w)
  | (Ok root, w) =>
  defer (RemoveAll root) (fun w =>
  let c := NewConsumer data in
  let (config, c) := GenerateStruct_Config c in
  let config := {| Rootfs := root;
                   Namespaces := Namespaces config;
                   Cgroups := Cgroups config |} in
  match GetInt c with
  | (Err _, _) => (-1, w)
  | (Ok ns, c) =>
  let config := addNamespaces ns config in
  match GetString c with
  | (Err _, _) => (0, w)
  | (Ok containerName, c) =>
  match newContainerWithName containerName root config w with
  | (Err _, w) => (0, w)
  | (Ok container, w) =>
  defer (fun w => (tt, invoke (CallDestroy container) w)) (fun w =>
  let w := invoke (CallState container) w in
  let w := invoke (CallStats container) w in
  let w := invoke (CallOCIState container) w in
  let w := invoke (CallProcesses container) w in
  (1, w)) w
  end
  end
  end) w
  end.

(** [FuzzFactory].  The removal of the state record is deferred after
    [createFiles] has returned.  When [os.Open] fails with an error
    other than "does not exist" the source goes on with a nil [f]:
    [load None].  The result of [Load] is dropped. *)
Definition FuzzFactory (data : list byte) (w : World) : Z * World :=
  if (length data <? 20)%nat then (-1, w) else
  let root := "/tmp/fuzz-root" in
  match MkdirAll root w with
  | (Err _, w) => (-1, w)
  | (Ok _, w) =>
  match MkdirAll "/tmp/fuzz-root/fuzz" w with
  | (Err _, w) => (-1, w)
  | (Ok _, w) =>
  let factory := {| Root := root;
                    InitPath := "/proc/self/exe";
                    InitArgs := [os_Args0; "init"];
                    Validator := validate_New;
                    CriuPath := "criu" |} in
  let c := NewConsumer data in
  match GetString c with
  | (Err _, _) => (0, w)
  | (Ok ociVersion, c) =>
  match GetString c with
  | (Err _, _) => (0, w)
  | (Ok id, c) =>
  match GetString c with
  | (Err _, _) => (0, w)
  | (Ok status, c) =>
  match GetInt c with
  | (Err _, _) => (0, w)
  | (Ok pid, c) =>
  match GetString c with
  | (Err _, _) => (0, w)
  | (Ok bundle, c) =>
  if (len ociVersion <? 5)%Z || (len id <? 5)%Z || (len bundle <? 5)%Z then (0, w) else
  let fstate := {| OciVersion := ociVersion;
                   Id := id;
                   Status := status;
                   Pid := pid;
                   Bundle := bundle;
                   Annotations := ["fuzz"] |} in
  let w := record (CallMarshal fstate) w in
  match json_Marshal fstate with
  | Err _ => (0, w)
  | Ok b =>
  let stateFilename := "state.json" in
  let state_json_path := "/tmp/fuzz-root/fuzz/state.json" in
  let state_json := [state_json_path] in
  match createFiles state_json b w with
  | (Err _, w) => (0, w)
  | (Ok _, w) =>
  defer (RemoveAll state_json_path) (fun w =>
  let r := SecureJoin (fs w) "/tmp/fuzz-root/fuzz" stateFilename in
  let w := record (CallSecureJoin "/tmp/fuzz-root/fuzz" stateFilename) w in
  match r with
  | Err _ => (-1, w)
  | Ok stateFilePath =>
  let load (f : option OsFile) (w : World) : Z * World :=
    defer (Close f) (fun w =>
    let w := invoke (CallLoad factory "fuzz") w in
    (1, w)) w in
  match Open stateFilePath w with
  | (Err e, w) => if IsNotExist e then (-1, w) else load None w
  | (Ok f, w) => load (Some f) w
  end
  end) w
  end
  end
  end
  end
  end
  end
  end
  end
  end.

End Libcontainer.

(** ** The harness of package devices *)

Module Devices.

(** What the harness uses of package devices: the emulator type, the
    parser of a rule list and the transition between two emulators. *)
Class Emulation : Type := {
  Emulator : Type;
  RuleChange : Type;
  EmulatorFromList : string -> result Emulator;
  Transition : Emulator -> Emulator -> result (list RuleChange)
}.

(** The calls [Fuzz] makes into package devices, in order. *)
Inductive DevCall `{Emulation} : Type :=
| CallEmulatorFromList (text : string)
| CallTransition (source target : Emulator).

Section Harness.
Context `{Consumer} `{Emulation}.

(** [Fuzz]: the signal it returns and the calls it has made into package
    devices.  [strings.NewReader] only wraps the string; the result of
    [Transition] is dropped. *)
Definition Fuzz (data : list byte) : Z * list DevCall :=
  let c := NewConsumer data in
  match GetString c with
  | (Err _, _) => (-1, [])
  | (Ok str1, c) =>
  match EmulatorFromList str1 with
  | Err _ => (-1, [CallEmulatorFromList str1])
  | Ok emu1 =>
  match GetString c with
  | (Err _, _) => (-1, [CallEmulatorFromList str1])
  | (Ok str2, c) =>
  match EmulatorFromList str2 with
  | Err _ => (-1, [CallEmulatorFromList str1; CallEmulatorFromList str2])
  | Ok emu2 =>
      (1, [CallEmulatorFromList str1; CallEmulatorFromList str2;
           CallTransition emu1 emu2])
  end
  end
  end
  end.

End Harness.

(** *** The rule-set emulator and its transition

    Modelled from the spec: [EmulatorFromList] and [Transition] belong to
    package devices and are not in the harness file, which only calls
    them.  The definitions below follow sections 3 and 4.6 of the
    specification: a rule list is an ordered sequence of rules (type,
    major and minor, permission bits, allow or deny) with a default
    policy; the emulator is the fold of the list, a later rule overriding
    the earlier ones it overlaps; the transition puts a change of default
    policy first and then a corrected rule for every selector whose
    resulting permission differs. *)

(** Modelled from the spec: the type of a device-access rule (section 3);
    a rule for all devices stands for the default policy. *)
Inductive DeviceType : Type := AllDevices | BlockDevice | CharDevice.

(** Modelled from the spec: a device selector, the type with the major
    and minor numbers; [None] is the wildcard. *)
Record Selector : Type := mkSelector {
  devType : DeviceType;
  major : option Z;
  minor : option Z
}.

(** Modelled from the spec: the permission bits of a rule. *)
Record Permissions : Type := mkPermissions {
  canRead : bool;
  canWrite : bool;
  canMknod : bool
}.

(** Modelled from the spec: a device-access rule (type, major and minor,
    permission bits, allow or deny flag). *)
Record DeviceRule : Type := mkDeviceRule {
  selector : Selector;
  permissions : Permissions;
  allow : bool
}.

(** Modelled from the spec: an ordered sequence of rules and a default
    policy. *)
Record DeviceRuleList : Type := mkDeviceRuleList {
  defaultPolicy : bool;
  rules : list DeviceRule
}.

(** Modelled from the spec: the effective policy, a default policy and
    the rules in force, one per selector. *)
Record RuleSetEmulator : Type := mkRuleSetEmulator {
  defaultAllow : bool;
  entries : list DeviceRule
}.

(** Modelled from the spec: a rule change of a transition, the
    default-policy-change pseudo-rule or a corrected rule. *)
Inductive Change : Type :=
| DefaultPolicyChange (allowAll : bool)
| CorrectedRule (r : DeviceRule).

(** Modelled from the spec: equality of device types. *)
Definition deviceType_eqb (a b : DeviceType) : bool :=
  match a, b with
  | AllDevices, AllDevices | BlockDevice, BlockDevice
  | CharDevice, CharDevice => true
  | _, _ => false
  end.

(** Modelled from the spec: equality of major or minor numbers, the
    wildcard being equal to itself only. *)
Definition number_eqb (a b : option Z) : bool :=
  match a, b with
  | None, None => true
  | Some x, Some y => (x =? y)%Z
  | _, _ => false
  end.

(** Modelled from the spec: two selectors are the same selector. *)
Definition selector_eqb (a b : Selector) : bool :=
  deviceType_eqb (devType a) (devType b)
  && number_eqb (major a) (major b)
  && number_eqb (minor a) (minor b).

(** Modelled from the spec: equality of permission bits. *)
Definition permissions_eqb (a b : Permissions) : bool :=
  Bool.eqb (canRead a) (canRead b)
  && Bool.eqb (canWrite a) (canWrite b)
  && Bool.eqb (canMknod a) (canMknod b).

(** Modelled from the spec: two numbers overlap when one is the wildcard
    or they are equal. *)
Definition number_overlaps (a b : option Z) : bool :=
  match a, b with
  | Some x, Some y => (x =? y)%Z
  | _, _ => true
  end.

(** Modelled from the spec: overlapping device selectors. *)
Definition overlaps (a b : Selector) : bool :=
  (deviceType_eqb (devType a) AllDevices
   || deviceType_eqb (devType b) AllDevices
   || deviceType_eqb (devType a) (devType b))
  && number_overlaps (major a) (major b)
  && number_overlaps (minor a) (minor b).

(** Modelled from the spec: one step of the fold.  A rule for all devices
    sets the default policy and overrides every earlier rule; any other
    rule overrides the earlier rules whose selector it overlaps. *)
Definition applyRule (e : RuleSetEmulator) (r : DeviceRule) : RuleSetEmulator :=
  if deviceType_eqb (devType (selector r)) AllDevices then
    {| defaultAllow := allow r; entries := [] |}
  else
    {| defaultAllow := defaultAllow e;
       entries :=
         List.filter (fun x => negb (overlaps (selector x) (selector r)))
                     (entries e) ++ [r] |}.

(** Modelled from the spec: the emulator of a rule list, the fold of its
    rules in order from its default policy. *)
Definition emulate (l : DeviceRuleList) : RuleSetEmulator :=
  fold_left applyRule (rules l)
            {| defaultAllow := defaultPolicy l; entries := [] |}.

(** Modelled from the spec: the resulting permission of a selector, the
    permission bits and the flag of its entry, if it has one. *)
Definition resulting (e : RuleSetEmulator) (s : Selector)
  : option (Permissions * bool) :=
  match List.find (fun x => selector_eqb (selector x) s) (entries e) with
  | Some x => Some (permissions x, allow x)
  | None => None
  end.

(** Modelled from the spec: equality of resulting permissions. *)
Definition resulting_eqb (a b : option (Permissions * bool)) : bool :=
  match a, b with
  | None, None => true
  | Some (p, f), Some (q, g) => permissions_eqb p q && Bool.eqb f g
  | _, _ => false
  end.

(** Modelled from the spec: the resulting permission of a selector
    differs between two emulators. *)
Definition differs (a b : RuleSetEmulator) (s : Selector) : bool :=
  negb (resulting_eqb (resulting a s) (resulting b s)).

(** Modelled from the spec: all permission bits. *)
Definition allPermissions : Permissions :=
  {| canRead := true; canWrite := true; canMknod := true |}.

(** Modelled from the spec: the corrected rule for a selector that only
    the source has, which goes back to the default policy of the
    target. *)
Definition backToDefault (b : RuleSetEmulator) (r : DeviceRule) : DeviceRule :=
  {| selector := selector r;
     permissions := allPermissions;
     allow := defaultAllow b |}.

(** Modelled from the spec: the transition from [a] to [b] (section 4.6).
    The change of default policy, if the flags differ, comes first; then
    a corrected rule for every selector whose resulting permission
    differs, those of [b] in declaration order and then those only [a]
    has. *)
Definition transition (a b : RuleSetEmulator) : list Change :=
  (if Bool.eqb (defaultAllow a) (defaultAllow b) then []
   else [DefaultPolicyChange (defaultAllow b)])
  ++ map CorrectedRule
       (List.filter (fun r => differs a b (selector r)) (entries b))
  ++ map (fun r => CorrectedRule (backToDefault b r))
       (List.filter
          (fun r => match resulting b (selector r) with
                    | None => true
                    | Some _ => false
                    end)
          (entries a)).

(** Modelled from the spec: whether a change allows something. *)
Definition allows (ch : Change) : bool :=
  match ch with
  | DefaultPolicyChange f => f
  | CorrectedRule r => allow r
  end.

(** Modelled from the spec: the rule [allow all]. *)
Definition allowAll : DeviceRule :=
  {| selector := {| devType := AllDevices; major := None; minor := None |};
     permissions := allPermissions;
     allow := true |}.

(** Modelled from the spec: the rule [deny all]. *)
Definition denyAll : DeviceRule :=
  {| selector := {| devType := AllDevices; major := None; minor := None |};
     permissions := allPermissions;
     allow := false |}.

(** Modelled from the spec: the emulation the harness runs against, for a
    parser [parse] of the line-oriented text of a rule list. *)
Definition specEmulation (parse : string -> result DeviceRuleList) : Emulation :=
  {| Emulator := RuleSetEmulator;
     RuleChange := Change;
     EmulatorFromList := fun text =>
       match parse text with
       | Ok l => Ok (emulate l)
       | Err e => Err e
       end;
     Transition := fun a b => Ok (transition a b) |}.

End Devices.

(** ** A reference environment

    Concrete instances of [Consumer], [Runtime] and [StructGen], on which
    the harnesses run by computation. *)

Module Reference.

(** Modelled from the spec: the byte-stream consumer (section 4.1), which
    is a library the harness files import.  A raw buffer and a cursor;
    each extraction consumes a length-governed slice of the remaining
    bytes and, when too few bytes remain, fails without consuming. *)
Record ByteStream : Type := mkByteStream {
  data : list byte;
  position : nat
}.

Definition remaining (c : ByteStream) : list byte := drop (position c) (data c).

Definition advance (n : nat) (c : ByteStream) : ByteStream :=
  {| data := data c; position := (position c + n)%nat |}.

Definition exhausted : error := ErrOther "not enough bytes".

(** Modelled from the spec: [getInt], one byte read as an integer. *)
Definition getInt (c : ByteStream) : result Z * ByteStream :=
  match remaining c with
  | b :: _ => (Ok (int_of_byte b), advance 1 c)
  | [] => (Err exhausted, c)
  end.

(** Modelled from the spec: [getString], a length byte and then that many
    bytes. *)
Definition getString (c : ByteStream) : result string * ByteStream :=
  match remaining c with
  | n :: rest =>
      let k := N.to_nat (Byte.to_N n) in
      if (k <=? length rest)%nat
      then (Ok (string_of_bytes (take k rest)), advance (1 + k) c)
      else (Err exhausted, c)
  | [] => (Err exhausted, c)
  end.

(** Sequences are at most [maxSeq] long. *)
Definition maxSeq : nat := 8.

(** Modelled from the spec: [n] elements of a sequence, stopping at the
    first element that cannot be extracted; the flag says whether all of
    them were. *)
Fixpoint getSeq {A : Type} (elem : ByteStream -> result A * ByteStream)
    (n : nat) (c : ByteStream) : list A * bool * ByteStream :=
  match n with
  | O => ([], true, c)
  | S n' =>
      match elem c with
      | (Err _, c) => ([], false, c)
      | (Ok a, c) =>
          let '(l, ok, c) := getSeq elem n' c in (a :: l, ok, c)
      end
  end.

(** Modelled from the spec: a sequence is a fuzzed length, bounded, then
    that many elements. *)
Definition getList {A : Type} (elem : ByteStream -> result A * ByteStream)
    (c : ByteStream) : list A * bool * ByteStream :=
  match getInt c with
  | (Err _, c) => ([], false, c)
  | (Ok n, c) => getSeq elem (Nat.min (Z.to_nat n) maxSeq) c
  end.

#[export] Instance byteStreamConsumer : Consumer :=
  {| ConsumeFuzzer := ByteStream;
     NewConsumer := fun d => {| data := d; position := 0 |};
     GetString := getString;
     GetInt := getInt |}.

(** The bootstrap record of the reference runtime: three fields of the
    Go struct [initConfig]. *)
Record InitConfig : Type := mkInitConfig {
  Args : list string;
  Env : list string;
  Cwd : string
}.

Record RefFactory : Type := mkRefFactory {
  factoryRoot : string;
  factoryDriver : CgroupDriver
}.

Record RefContainer : Type := mkRefContainer {
  containerId : string;
  containerFactory : RefFactory;
  containerConfig : Config
}.

(** The double quote character. *)
Definition quote : ascii := ascii_of_nat 34.

(** A JSON string literal: quotes and backslashes are escaped. *)
Fixpoint json_escape (s : string) : string :=
  match s with
  | EmptyString => EmptyString
  | String c s' =>
      if Ascii.eqb c quote || Ascii.eqb c "\"
      then String "\" (String c (json_escape s'))
      else String c (json_escape s')
  end.

Definition json_string (s : string) : string :=
  String quote (json_escape s ++ String quote EmptyString).

Definition json_int (z : Z) : string :=
  DecimalString.NilZero.string_of_int (Z.to_int z).

Fixpoint json_strings (l : list string) : string :=
  match l with
  | [] => EmptyString
  | [s] => json_string s
  | s :: l' => json_string s ++ "," ++ json_strings l'
  end.

Definition json_field (name value : string) : string :=
  json_string name ++ ":" ++ value.

(** The state record with the field names of the struct tags of
    [FuzzState]. *)
Definition marshalFuzzState (v : FuzzState) : list byte :=
  list_byte_of_string
    ("{" ++ json_field "ociVersion" (json_string (OciVersion v))
     ++ "," ++ json_field "id" (json_string (Id v))
     ++ "," ++ json_field "status" (json_string (Status v))
     ++ "," ++ json_field "pid" (json_int (Pid v))
     ++ "," ++ json_field "bundle" (json_string (Bundle v))
     ++ "," ++ json_field "annotations" ("[" ++ json_strings (Annotations v) ++ "]")
     ++ "}").

(** The reference runtime, on a host that refuses the calls of [faults].
    [New] builds a factory for any root; [Create] turns down the empty
    name; the runtime leaves the file system alone. *)
Definition refRuntime (faults : Syscall -> string -> bool) : Runtime :=
  {| initConfig := InitConfig;
     Factory := RefFactory;
     Container := RefContainer;
     Getppid := 1;
     os_Args0 := "fuzzer";
     refuses := faults;
     New := fun _ root driver => Ok (mkRefFactory root driver);
     Create := fun _ f name cfg =>
       if String.eqb name EmptyString then Err (ErrOther "invalid id format")
       else Ok (mkRefContainer name f cfg);
     json_Marshal := fun v => Ok (marshalFuzzState v);
     SecureJoin := fun _ root unsafePath => Ok (root ++ "/" ++ unsafePath);
     effect := fun _ m => m |}.

(** The reference runtime on a host without systemd: the factory of the
    systemd cgroup driver cannot be built. *)
Definition noSystemdRuntime : Runtime :=
  {| initConfig := InitConfig;
     Factory := RefFactory;
     Container := RefContainer;
     Getppid := 1;
     os_Args0 := "fuzzer";
     refuses := fun _ _ => false;
     New := fun _ root driver =>
       match driver with
       | Cgroupfs => Ok (mkRefFactory root driver)
       | SystemdCgroups => Err (ErrOther "systemd not running on this host")
       end;
     Create := fun _ f name cfg =>
       if String.eqb name EmptyString then Err (ErrOther "invalid id format")
       else Ok (mkRefContainer name f cfg);
     json_Marshal := fun v => Ok (marshalFuzzState v);
     SecureJoin := fun _ root unsafePath => Ok (root ++ "/" ++ unsafePath);
     effect := fun _ m => m |}.

Definition noFaults : Syscall -> string -> bool := fun _ _ => false.


(** A host on which writing to [path] fails. *)
Definition writeFails (path : string) : Syscall -> string -> bool :=
  fun sc p =>
    match sc with
    | SysWrite => String.eqb p path
    | _ => false
    end.

(** Modelled from the spec: the population of a record, field by field
    in declaration order; it stops at the first field that cannot be
    extracted and leaves the fields after it zero. *)
Definition populateInitConfig (c : ByteStream) : InitConfig * ByteStream :=
  let '(args, ok, c) := getList getString c in
  if negb ok then ({| Args := args; Env := []; Cwd := EmptyString |}, c) else
  let '(env, ok, c) := getList getString c in
  if negb ok then ({| Args := args; Env := env; Cwd := EmptyString |}, c) else
  match getString c with
  | (Err _, c) => ({| Args := args; Env := env; Cwd := EmptyString |}, c)
  | (Ok cwd, c) => ({| Args := args; Env := env; Cwd := cwd |}, c)
  end.

Definition getNamespace (c : ByteStream) : result Namespace * ByteStream :=
  match getString c with
  | (Err e, c) => (Err e, c)
  | (Ok t, c) =>
      match getString c with
      | (Err e, c) => (Err e, c)
      | (Ok p, c) => (Ok {| nsType := t; Path := p |}, c)
      end
  end.

(** Modelled from the spec: the population of a [Config]; the pointer
    field [Cgroups] is allocated when the population reaches it. *)
Definition populateConfig (c : ByteStream) : Config * ByteStream :=
  match getString c with
  | (Err _, c) => ({| Rootfs := EmptyString; Namespaces := []; Cgroups := None |}, c)
  | (Ok rootfs, c) =>
      let '(nss, ok, c) := getList getNamespace c in
      if negb ok
      then ({| Rootfs := rootfs; Namespaces := nss; Cgroups := None |}, c)
      else
        match getString c with
        | (Err _, c) =>
            ({| Rootfs := rootfs; Namespaces := nss;
                Cgroups := Some {| Parent := EmptyString |} |}, c)
        | (Ok parent, c) =>
            ({| Rootfs := rootfs; Namespaces := nss;
                Cgroups := Some {| Parent := parent |} |}, c)
        end
  end.

Definition refStructGen (faults : Syscall -> string -> bool)
  : @StructGen (refRuntime faults) byteStreamConsumer :=
  @Build_StructGen (refRuntime faults) byteStreamConsumer
    populateInitConfig populateConfig.

(** A length byte and the bytes of [s]: what [getString] reads [s] from. *)
Definition encodeString (s : string) : list byte :=
  match Byte.of_N (N.of_nat (String.length s)) with
  | Some n => n :: list_byte_of_string s
  | None => []
  end.

(** A buffer for [FuzzFactory]: the version ["1.0.0x"], the identifier
    ["abcde"], an empty status, the pid 7 and the bundle ["/a/b/c/d"]. *)
Definition factoryInput : list byte :=
  (encodeString "1.0.0x" ++ encodeString "abcde" ++ encodeString EmptyString
   ++ [x07] ++ encodeString "/a/b/c/d")%list.

(** The same with the identifier ["abc"], too short for the filter. *)
Definition shortIdInput : list byte :=
  (encodeString "1.0.0x" ++ encodeString "abc" ++ encodeString EmptyString
   ++ [x07] ++ encodeString "/a/b/c/d/e/f")%list.

(** Buffers for [FuzzStateApi].  Population reads the root (empty), no
    namespace and the cgroup parent; then come the selector and the
    name.  The first stops inside population, the second has no name
    left, the third is complete. *)
Definition noSelectorInput : list byte := [x03; x61; x62; x63].
Definition noNameInput : list byte := [x00; x00; x00; x00].
Definition lifecycleInput : list byte := [x00; x00; x00; x00; x01; x41].

(** The third buffer with the selector 12, a multiple of both 3 and 4,
    and with the selector 8, a multiple of 4 only. *)
Definition twelveInput : list byte := [x00; x00; x00; x0c; x01; x41].
Definition eightInput : list byte := [x00; x00; x00; x08; x01; x41].

(** The third buffer with the cgroup parent ["system.slice"]. *)
Definition systemdInput : list byte :=
  ([x00; x00] ++ encodeString "system.slice" ++ [x00; x01; x41])%list.

(** The complete buffer with an empty name, which [Create] turns down. *)
Definition emptyNameInput : list byte := [x00; x00; x00; x00; x00].

(** A buffer for [FuzzInit]: one argument ["ab"], no environment. *)
Definition initInput : list byte := [x01; x02; x61; x62; x00].

(** The path of the state record of [FuzzFactory]. *)
Definition stateJson : string := "/tmp/fuzz-root/fuzz/state.json".

(** An empty file system, the default logger level, no call made yet. *)
Definition emptyWorld (faults : Syscall -> string -> bool)
  : @World (refRuntime faults) :=
  {| fs := ∅; loglevel := InfoLevel; calls := [] |}.

End Reference.

(** * Properties *)

(** ** The file-system operations *)

Lemma remove_tree_under (path p : string) (m : FS) :
  is_under path p = true -> remove_tree path m !! p = None.
Proof.
  intros Hu. unfold remove_tree.
  apply map_lookup_filter_None. right. intros x _. simpl.
  rewrite Hu. simpl. tauto.
Qed.

Lemma is_under_refl (path : string) : is_under path path = true.
Proof. unfold is_under. rewrite String.eqb_refl. reflexivity. Qed.

Lemma remove_tree_self (path : string) (m : FS) :
  remove_tree path m !! path = None.
Proof. apply remove_tree_under, is_under_refl. Qed.

Lemma remove_tree_other (path p : string) (m : FS) :
  is_under path p = false -> remove_tree path m !! p = m !! p.
Proof.
  intros Hu. unfold remove_tree.
  destruct (m !! p) as [x|] eqn:E.
  - apply map_lookup_filter_Some. split; [exact E|]. simpl. rewrite Hu. exact I.
  - apply map_lookup_filter_None. left. exact E.
Qed.

Lemma mkdirs_in (paths : list string) (m : FS) (p : string) :
  In p paths -> mkdirs paths m !! p = Some Directory.
Proof.
  induction paths as [|q paths IH]; simpl; [tauto|].
  intros [->|Hin].
  - apply lookup_insert_eq.
  - destruct (decide (q = p)) as [->|Hne].
    + apply lookup_insert_eq.
    + rewrite lookup_insert_ne by exact Hne. auto.
Qed.

Lemma mkdirs_not_in (paths : list string) (m : FS) (p : string) :
  ~ In p paths -> mkdirs paths m !! p = m !! p.
Proof.
  induction paths as [|q paths IH]; simpl; [reflexivity|].
  intros Hn. rewrite lookup_insert_ne by tauto. apply IH. tauto.
Qed.



(** ** The operations of package os on a world *)

Local Open Scope list_scope.

Section OSFacts.
Context `{Runtime}.

Lemma fst_defer {A B : Type} (cleanup : World -> B * World)
    (body : World -> A * World) (w : World) :
  fst (defer cleanup body w) = fst (body w).
Proof. unfold defer. destruct (body w). reflexivity. Qed.

Lemma snd_defer {A B : Type} (cleanup : World -> B * World)
    (body : World -> A * World) (w : World) :
  snd (defer cleanup body w) = snd (cleanup (snd (body w))).
Proof. unfold defer. destruct (body w). reflexivity. Qed.

(** A successful [OpenFile] hands back a handle on [name], leaves a
    regular file there and touches no other path. *)
Lemma OpenFile_Ok (name : string) (w w' : World) (f : OsFile) :
  OpenFile name w = (Ok f, w') ->
  f = mkOsFile name
  /\ refuses SysOpenFile name = false
  /\ calls w' = calls w ++ [OsOpenFile name]
  /\ loglevel w' = loglevel w
  /\ (exists c, fs w' !! name = Some (RegularFile c))
  /\ (forall p, p <> name -> fs w' !! p = fs w !! p)
  /\ (forall x, fs w !! name = Some x -> fs w' = fs w).
Proof.
  unfold OpenFile. destruct (refuses SysOpenFile name); [discriminate|].
  cbn [fs record]. destruct (fs w !! name) as [[c|]|] eqn:E.
  - intros [= <- <-]. cbn. repeat split; eauto.
  - discriminate.
  - intros [= <- <-]. cbn. repeat split.
    + exists []. apply lookup_insert_eq.
    + intros p Hp. apply lookup_insert_ne. congruence.
    + discriminate.
Qed.

(** A failed [OpenFile] changes nothing on disk. *)
Lemma OpenFile_Err (name : string) (w w' : World) (e : error) :
  OpenFile name w = (Err e, w') -> w' = record (OsOpenFile name) w.
Proof.
  unfold OpenFile. destruct (refuses SysOpenFile name); [congruence|].
  cbn [fs record]. destruct (fs w !! name) as [[c|]|]; congruence.
Qed.

Lemma calls_OpenFile (name : string) (w : World) :
  calls (snd (OpenFile name w)) = calls w ++ [OsOpenFile name].
Proof.
  unfold OpenFile. destruct (refuses SysOpenFile name); [reflexivity|].
  cbn [fs record]. destruct (fs w !! name) as [[c|]|]; reflexivity.
Qed.

Lemma calls_Write (f : OsFile) (b : list byte) (w : World) :
  calls (snd (Write f b w)) = calls w ++ [OsWrite (fname f) b].
Proof.
  unfold Write. destruct (refuses SysWrite (fname f)); [reflexivity|].
  cbn [fs record]. destruct (fs w !! fname f) as [[c|]|]; reflexivity.
Qed.

Lemma calls_Close (f : option OsFile) (w : World) :
  calls (snd (Close f w)) = calls w ++ [OsClose f].
Proof. destruct f; reflexivity. Qed.

Lemma fs_Close (f : option OsFile) (w : World) :
  fs (snd (Close f w)) = fs w.
Proof. destruct f; reflexivity. Qed.

Lemma calls_RemoveAll (path : string) (w : World) :
  calls (snd (RemoveAll path w)) = calls w ++ [OsRemoveAll path].
Proof. unfold RemoveAll. destruct (refuses SysRemoveAll path); reflexivity. Qed.

Lemma calls_MkdirAll (path : string) (w : World) :
  calls (snd (MkdirAll path w)) = calls w ++ [OsMkdirAll path].
Proof.
  unfold MkdirAll. destruct (refuses SysMkdirAll path); [reflexivity|].
  cbn [fs record]. destruct (existsb _ _); reflexivity.
Qed.

Lemma calls_Open (name : string) (w : World) :
  calls (snd (Open name w)) = calls w ++ [OsOpen name].
Proof.
  unfold Open. cbn [fs record]. destruct (fs w !! name); [|reflexivity].
  destruct (refuses SysOpen name); reflexivity.
Qed.


(** [RemoveAll], when the host lets it, leaves nothing at [path] or
    below it, and nothing else is touched. *)
Lemma fs_RemoveAll (path : string) (w : World) :
  refuses SysRemoveAll path = false ->
  fs (snd (RemoveAll path w)) = remove_tree path (fs w).
Proof. unfold RemoveAll. intros ->. reflexivity. Qed.

(** Whether the host lets it or not, [RemoveAll] creates nothing. *)
Lemma RemoveAll_lookup (path p : string) (w : World) :
  fs (snd (RemoveAll path w)) !! p = None
  \/ fs (snd (RemoveAll path w)) !! p = fs w !! p.
Proof.
  unfold RemoveAll. destruct (refuses SysRemoveAll path); cbn; [tauto|].
  destruct (is_under path p) eqn:E.
  - left. apply remove_tree_under. exact E.
  - right. apply remove_tree_other. exact E.
Qed.

(** A successful [MkdirAll] leaves a directory at [path]. *)
Lemma MkdirAll_Ok (path : string) (w w' : World) (u : unit) :
  MkdirAll path w = (Ok u, w') ->
  refuses SysMkdirAll path = false
  /\ existsb (is_file (fs w)) (chain path) = false
  /\ fs w' = mkdirs (chain path) (fs w)
  /\ calls w' = calls w ++ [OsMkdirAll path]
  /\ loglevel w' = loglevel w.
Proof.
  unfold MkdirAll. destruct (refuses SysMkdirAll path); [discriminate|].
  cbn [fs record]. destruct (existsb _ _); [discriminate|].
  intros [= <- <-]. cbn. tauto.
Qed.


Lemma OpenFile_other (name p : string) (w : World) :
  p <> name -> fs (snd (OpenFile name w)) !! p = fs w !! p.
Proof.
  intros Hp. unfold OpenFile.
  destruct (refuses SysOpenFile name); [reflexivity|].
  cbn [fs record]. destruct (fs w !! name) as [[c|]|]; try reflexivity.
  cbn. apply lookup_insert_ne. congruence.
Qed.

Lemma Write_other (f : OsFile) (b : list byte) (p : string) (w : World) :
  p <> fname f -> fs (snd (Write f b w)) !! p = fs w !! p.
Proof.
  intros Hp. unfold Write.
  destruct (refuses SysWrite (fname f)); [reflexivity|].
  cbn [fs record]. destruct (fs w !! fname f) as [[c|]|]; try reflexivity.
  cbn. apply lookup_insert_ne. congruence.
Qed.

Lemma RemoveAll_other (path p : string) (w : World) :
  is_under path p = false -> fs (snd (RemoveAll path w)) !! p = fs w !! p.
Proof.
  intros Hu. unfold RemoveAll.
  destruct (refuses SysRemoveAll path); [reflexivity|].
  cbn. apply remove_tree_other. exact Hu.
Qed.

Lemma RemoveAll_self (path : string) (w : World) :
  refuses SysRemoveAll path = false ->
  fs (snd (RemoveAll path w)) !! path = None.
Proof. intros Hr. rewrite fs_RemoveAll by exact Hr. apply remove_tree_self. Qed.

End OSFacts.

(** ** The harnesses of package libcontainer *)

Section LibcontainerFacts.
Context `{StructGen}.

(** [FuzzInit] returns [1] exactly when the buffer is long enough and
    both scratch files could be opened, and [-1] otherwise. *)
Lemma FuzzInit_signal (data : list byte) (w : World) :
  fst (FuzzInit data w) =
  if (length data <? 5)%nat
     || negb (is_ok (fst (OpenFile "pipe.txt" w)))
     || negb (is_ok (fst (OpenFile "consoleSocket.txt"
                            (snd (OpenFile "pipe.txt" w)))))
  then -1 else 1.
Proof.
  unfold FuzzInit. destruct (length data <? 5)%nat; [reflexivity|].
  destruct (OpenFile "pipe.txt" w) as [[pipe|e] w1]; [|reflexivity].
  rewrite !fst_defer. cbn [fst snd is_ok negb orb].
  destruct (OpenFile "consoleSocket.txt" w1) as [[cs|e] w2]; [|reflexivity].
  rewrite !fst_defer. cbn [fst snd is_ok negb orb].
  destruct (GenerateStruct_initConfig (NewConsumer data)). reflexivity.
Qed.

(** The calls of a run of [FuzzInit] that returns [1], in order: the two
    scratch files are opened, [Init] is entered, and the deferred calls
    run last-registered first. *)
Lemma FuzzInit_calls (data : list byte) (w : World) :
  fst (FuzzInit data w) = 1 ->
  calls (snd (FuzzInit data w)) =
  calls w ++ [OsOpenFile "pipe.txt"; OsOpenFile "consoleSocket.txt";
              CallInit (initContext data);
              OsRemoveAll "consoleSocket.txt";
              OsClose (Some (mkOsFile "consoleSocket.txt"));
              OsRemoveAll "pipe.txt";
              OsClose (Some (mkOsFile "pipe.txt"))].
Proof.
  unfold FuzzInit. destruct (length data <? 5)%nat; [discriminate|].
  destruct (OpenFile "pipe.txt" w) as [[pipe|e] w1] eqn:E1; [|discriminate].
  rewrite !fst_defer.
  destruct (OpenFile "consoleSocket.txt" w1) as [[cs|e] w2] eqn:E2;
    [|discriminate].
  intros _.
  destruct (OpenFile_Ok _ _ _ _ E1) as (-> & _ & C1 & _).
  destruct (OpenFile_Ok _ _ _ _ E2) as (-> & _ & C2 & _).
  rewrite !snd_defer, calls_Close, calls_RemoveAll.
  cbv beta. rewrite E2. rewrite !snd_defer, calls_Close, calls_RemoveAll.
  unfold initContext.
  destruct (GenerateStruct_initConfig (NewConsumer data)) as [cfg c].
  cbn [fst snd invoke calls]. rewrite C2, C1.
  rewrite <- !app_assoc. reflexivity.
Qed.

(** Go's [n % k == 0] and divisibility of [n] by [k] agree, also for a
    negative [n]. *)
Lemma rem_zero_mod_zero (n k : Z) :
  (0 < k)%Z -> (Z.rem n k =? 0)%Z = (n mod k =? 0)%Z.
Proof.
  intros Hk. apply eq_true_iff_eq.
  rewrite !Z.eqb_eq, Z.rem_divide, Z.mod_divide by lia. tauto.
Qed.

(** [createFiles] touches no path outside its list, whether it succeeds
    or not. *)
Lemma createFiles_other (files : list string) (b : list byte) (p : string) :
  ~ In p files ->
  forall w, fs (snd (createFiles files b w)) !! p = fs w !! p.
Proof.
  induction files as [|file rest IH]; intros Hn w; [reflexivity|].
  cbn [createFiles].
  assert (Hp : p <> file) by (intros ->; apply Hn; left; reflexivity).
  assert (Hr : ~ In p rest) by (intros Hi; apply Hn; right; exact Hi).
  pose proof (OpenFile_other file p w Hp) as Ho.
  destruct (OpenFile file w) as [[f|e] w1] eqn:E; [|exact Ho].
  destruct (OpenFile_Ok _ _ _ _ E) as (-> & _).
  rewrite snd_defer, fs_Close. cbn [snd] in Ho.
  pose proof (Write_other (mkOsFile file) b p w1 Hp) as Hw.
  destruct (Write (mkOsFile file) b w1) as [[n|e] w2].
  - rewrite IH by exact Hr. cbn [snd] in Hw. congruence.
  - cbn [snd] in *. congruence.
Qed.

(** No call is ever taken back from the log. *)
Lemma createFiles_calls_incl (files : list string) (b : list byte)
    (e : Call initConfig Factory Container) :
  forall w, In e (calls w) -> In e (calls (snd (createFiles files b w))).
Proof.
  induction files as [|file rest IH]; intros w Hin; [exact Hin|].
  cbn [createFiles].
  pose proof (calls_OpenFile file w) as Co.
  destruct (OpenFile file w) as [[f|e'] w1]; cbn [snd] in Co.
  - rewrite snd_defer, calls_Close. apply in_or_app. left.
    pose proof (calls_Write f b w1) as Cw.
    destruct (Write f b w1) as [[n|e'] w2]; cbn [snd] in Cw.
    + apply IH. rewrite Cw, Co. apply in_or_app. left.
      apply in_or_app. left. exact Hin.
    + cbn [snd]. rewrite Cw, Co. apply in_or_app. left.
      apply in_or_app. left. exact Hin.
  - cbn [snd]. rewrite Co. apply in_or_app. left. exact Hin.
Qed.


End LibcontainerFacts.

(** * The harnesses against their specification *)

Section Claims.
Context `{StructGen}.

(** C2.  In [FuzzStateApi], once the selector [n] and the name are
    extracted, the run goes on exactly as [newContainerWithName] on the
    config whose namespace set is decided by [n] alone: the UTS-only set
    when [n] is a multiple of 3, else the mount-only set when [n] is a
    multiple of 4, else the empty set, whatever set the generator had
    produced.  This holds for every integer [n], negative or not; the
    three sets are pairwise different, so every [n] has exactly one
    outcome, and a multiple of both 3 and 4 has the first. *)
Theorem C2_namespace_selection (data : list byte) (w w1 : World)
    (root : string) (generated : Config) (c1 c2 c3 : ConsumeFuzzer) (n : Z)
    (containerName : string) :
  (4 <= length data)%nat ->
  newTestRoot (SetLevel PanicLevel w) = (Ok root, w1) ->
  GenerateStruct_Config (NewConsumer data) = (generated, c1) ->
  GetInt c1 = (Ok n, c2) ->
  GetString c2 = (Ok containerName, c3) ->
  let uts := [ {| nsType := NEWUTS; Path := EmptyString |} ] in
  let mount := [ {| nsType := NEWNS; Path := EmptyString |} ] in
  let chosen := if (n mod 3 =? 0)%Z then uts
                else if (n mod 4 =? 0)%Z then mount else [] in
  let cfg := {| Rootfs := root; Namespaces := chosen;
                Cgroups := Cgroups generated |} in
  FuzzStateApi data w =
    (match newContainerWithName containerName root cfg w1 with
     | (Err _, w2) => (0, snd (RemoveAll root w2))
     | (Ok container, w2) =>
         (1, snd (RemoveAll root
                    (invoke (CallDestroy container)
                       (invoke (CallProcesses container)
                          (invoke (CallOCIState container)
                             (invoke (CallStats container)
                                (invoke (CallState container) w2)))))))
     end)
  /\ uts <> mount /\ uts <> [] /\ mount <> []
  /\ ((n mod 3 =? 0)%Z && (n mod 4 =? 0)%Z = true -> chosen = uts).
Proof.
  intros Hlen Hroot Hgen Hint Hname uts mount chosen cfg.
  split; [|repeat split; try discriminate].
  - unfold FuzzStateApi.
    destruct (Nat.ltb_spec (length data) 4); [lia|].
    rewrite Hroot. unfold defer at 1. rewrite Hgen, Hint, Hname.
    assert (Hcfg : addNamespaces n {| Rootfs := root;
                                      Namespaces := Namespaces generated;
                                      Cgroups := Cgroups generated |} = cfg).
    { unfold addNamespaces, cfg, chosen.
      rewrite (rem_zero_mod_zero n 3), (rem_zero_mod_zero n 4) by lia.
      destruct (n mod 3 =? 0)%Z; [reflexivity|].
      destruct (n mod 4 =? 0)%Z; reflexivity. }
    rewrite Hcfg.
    destruct (newContainerWithName containerName root cfg w1)
      as [[container|e] w2]; [|reflexivity].
    unfold defer. reflexivity.
  - unfold chosen. intros Hboth. apply andb_true_iff in Hboth as [-> _].
    reflexivity.
Qed.

(** C3.  A buffer shorter than the minimum of a harness (5 bytes for
    [FuzzInit], 4 for [FuzzStateApi], 20 for [FuzzFactory]) is turned
    down with [-1] before any call to package os or to the runtime: the
    file system and the list of calls are those of the start.
    [FuzzStateApi] has set the logger level by then, which is no write
    to the file system. *)
Theorem C3_short_input_rejected (data : list byte) (w : World) :
  ((length data < 5)%nat -> FuzzInit data w = (-1, w))
  /\ ((length data < 4)%nat ->
      fst (FuzzStateApi data w) = -1
      /\ fs (snd (FuzzStateApi data w)) = fs w
      /\ calls (snd (FuzzStateApi data w)) = calls w)
  /\ ((length data < 20)%nat -> FuzzFactory data w = (-1, w)).
Proof.
  repeat split.
  - intros Hl. unfold FuzzInit.
    destruct (Nat.ltb_spec (length data) 5); [reflexivity|lia].
  - unfold FuzzStateApi.
    destruct (Nat.ltb_spec (length data) 4); [reflexivity|lia].
  - unfold FuzzStateApi.
    destruct (Nat.ltb_spec (length data) 4); [reflexivity|lia].
  - unfold FuzzStateApi.
    destruct (Nat.ltb_spec (length data) 4); [reflexivity|lia].
  - intros Hl. unfold FuzzFactory.
    destruct (Nat.ltb_spec (length data) 20); [reflexivity|lia].
Qed.

(** C5 (as amended).  In a run of [FuzzInit] that reaches [Init], the
    descriptor number [fifoFd] is the first byte of the buffer read as an
    integer, so it lies in [0, 255]; the fuzzed record [config] is
    populated by a consumer made on the whole buffer, first byte
    included. *)
Theorem C5_fifoFd_first_byte_config_whole_buffer (data : list byte) (w : World) :
  fst (FuzzInit data w) = 1 ->
  exists (b : byte) (rest : list byte) (l : linuxStandardInit initConfig),
    data = b :: rest
    /\ In (CallInit l) (calls (snd (FuzzInit data w)))
    /\ fifoFd l = int_of_byte b
    /\ (0 <= fifoFd l <= 255)%Z
    /\ config l = fst (GenerateStruct_initConfig (NewConsumer (b :: rest))).
Proof.
  intros Hret. pose proof (FuzzInit_calls data w Hret) as Hc.
  pose proof (FuzzInit_signal data w) as Hs. rewrite Hret in Hs.
  destruct data as [|b rest].
  { cbn in Hs. discriminate. }
  exists b, rest, (initContext (b :: rest)). split; [reflexivity|].
  split.
  { rewrite Hc. apply in_or_app. right. cbn. tauto. }
  split; [reflexivity|]. split; [|reflexivity].
  cbn [fifoFd initContext]. unfold int_of_byte.
  destruct b; cbv; split; discriminate.
Qed.

(** C9.  [newContainerWithName] first builds the factory of the
    file-system cgroup driver.  Exactly when the config has a cgroup
    section whose parent is ["system.slice"] it goes on to build the
    factory of the systemd driver, and creates the container through
    that one (or returns the error of building it).  In every other
    case, a config without cgroup section included, the systemd factory
    is not even asked for and the container is created through the
    file-system factory.  Either way [Create] gets the name and the
    config the caller passed, and its result is what
    [newContainerWithName] returns. *)
Theorem C9_cgroup_driver_selection (name root : string) (cfg : Config)
    (w : World) (f1 : Factory) :
  New (fs w) root Cgroupfs = Ok f1 ->
  let wa := invoke (CallNew root Cgroupfs) w in
  let wb := invoke (CallNew root SystemdCgroups) wa in
  let run := newContainerWithName name root cfg w in
  (wantsSystemd cfg = true <->
   exists cg, Cgroups cfg = Some cg /\ Parent cg = "system.slice")
  /\ (if wantsSystemd cfg
      then match New (fs wa) root SystemdCgroups with
           | Ok f2 =>
               calls (snd run) =
               calls w ++ [CallNew root Cgroupfs; CallNew root SystemdCgroups;
                           CallCreate f2 name cfg]
               /\ fst run = Create (fs wb) f2 name cfg
           | Err e =>
               calls (snd run) =
               calls w ++ [CallNew root Cgroupfs; CallNew root SystemdCgroups]
               /\ fst run = Err e
           end
      else calls (snd run) =
           calls w ++ [CallNew root Cgroupfs; CallCreate f1 name cfg]
           /\ fst run = Create (fs wa) f1 name cfg).
Proof.
  intros N1 wa wb run. split.
  { unfold wantsSystemd. destruct (Cgroups cfg) as [cg|].
    - rewrite String.eqb_eq. split.
      + intros Hp. exists cg. tauto.
      + intros (cg' & [= <-] & Hp). exact Hp.
    - split; [discriminate|]. intros (cg' & Hn & _). discriminate. }
  unfold run, newContainerWithName. rewrite N1. fold wa.
  destruct (wantsSystemd cfg).
  - destruct (New (fs wa) root SystemdCgroups) as [f2|e];
      cbn [fst snd invoke calls wa]; rewrite <- !app_assoc;
      split; reflexivity.
  - cbn [fst snd invoke calls wa]. rewrite <- !app_assoc. split; reflexivity.
Qed.

(** C4 (as amended).  Past the length check and the creation of the root
    directory, the code [FuzzStateApi] returns is decided by the first
    step that fails: [-1], the code of the length check, when the
    selector integer cannot be extracted; [0] when the name string cannot
    be extracted or the container cannot be created; [1] otherwise. *)
Theorem C4_lifecycle_return_codes (data : list byte) (w w1 : World)
    (root : string) :
  (4 <= length data)%nat ->
  newTestRoot (SetLevel PanicLevel w) = (Ok root, w1) ->
  fst (FuzzStateApi data w) =
    let (generated, c1) := GenerateStruct_Config (NewConsumer data) in
    match GetInt c1 with
    | (Err _, _) => -1
    | (Ok ns, c2) =>
        match GetString c2 with
        | (Err _, _) => 0
        | (Ok containerName, _) =>
            if is_ok (fst (newContainerWithName containerName root
                             (addNamespaces ns
                                {| Rootfs := root;
                                   Namespaces := Namespaces generated;
                                   Cgroups := Cgroups generated |}) w1))
            then 1 else 0
        end
    end.
Proof.
  intros Hlen Hroot. unfold FuzzStateApi.
  destruct (Nat.ltb_spec (length data) 4); [lia|].
  rewrite Hroot, fst_defer.
  destruct (GenerateStruct_Config (NewConsumer data)) as [generated c1].
  destruct (GetInt c1) as [[ns|e] c2]; [|reflexivity].
  destruct (GetString c2) as [[containerName|e] c3]; [|reflexivity].
  destruct (newContainerWithName _ _ _ w1) as [[container|e] w2];
    [|reflexivity].
  rewrite fst_defer. reflexivity.
Qed.


(** C8.  In a run of [FuzzFactory] that has made its directories and
    extracted its five fields: if one of [ociVersion], [id] and [bundle]
    is shorter than 5 bytes, the harness returns [0] in the world the
    second [MkdirAll] left, so nothing was serialised, opened or written;
    otherwise the state record goes to [json.Marshal] with the extracted
    status and pid, whatever these two are. *)
Theorem C8_length_filter (data : list byte) (w w1 w2 : World) (u1 u2 : unit)
    (ociVersion id status bundle : string) (pid : Z)
    (c1 c2 c3 c4 c5 : ConsumeFuzzer) :
  (20 <= length data)%nat ->
  MkdirAll "/tmp/fuzz-root" w = (Ok u1, w1) ->
  MkdirAll "/tmp/fuzz-root/fuzz" w1 = (Ok u2, w2) ->
  GetString (NewConsumer data) = (Ok ociVersion, c1) ->
  GetString c1 = (Ok id, c2) ->
  GetString c2 = (Ok status, c3) ->
  GetInt c3 = (Ok pid, c4) ->
  GetString c4 = (Ok bundle, c5) ->
  if (len ociVersion <? 5)%Z || (len id <? 5)%Z || (len bundle <? 5)%Z
  then FuzzFactory data w = (0, w2)
  else In (CallMarshal {| OciVersion := ociVersion; Id := id;
                          Status := status; Pid := pid; Bundle := bundle;
                          Annotations := ["fuzz"] |})
          (calls (snd (FuzzFactory data w))).
Proof.
  intros Hlen E1 E2 G1 G2 G3 G4 G5. unfold FuzzFactory.
  destruct (Nat.ltb_spec (length data) 20); [lia|].
  rewrite E1, E2, G1, G2, G3, G4, G5.
  destruct (_ || _ || _); [reflexivity|].
  set (fstate := {| OciVersion := ociVersion; Id := id; Status := status;
                    Pid := pid; Bundle := bundle; Annotations := ["fuzz"] |}).
  assert (Hin : In (CallMarshal fstate) (calls (record (CallMarshal fstate) w2))).
  { cbn. apply in_or_app. right. left. reflexivity. }
  destruct (json_Marshal fstate) as [b|?]; [|exact Hin].
  match goal with
  | |- context [createFiles ?l b ?w0] =>
      pose proof (createFiles_calls_incl l b _ w0 Hin) as Hc;
      destruct (createFiles l b w0) as [[?|?] w3]
  end; cbn [snd] in Hc; [|exact Hc].
  rewrite snd_defer, calls_RemoveAll. apply in_or_app. left.
  destruct (SecureJoin _ _ _) as [stateFilePath|?];
    [|cbn; apply in_or_app; left; exact Hc].
  match goal with
  | |- context [Open stateFilePath ?w0] =>
      pose proof (calls_Open stateFilePath w0) as Ho;
      destruct (Open stateFilePath w0) as [[f|e] w4]
  end; cbn [snd calls record] in Ho.
  - rewrite snd_defer, calls_Close. cbn. rewrite Ho.
    repeat (apply in_or_app; left). exact Hc.
  - destruct (IsNotExist e).
    + cbn. rewrite Ho. repeat (apply in_or_app; left). exact Hc.
    + rewrite snd_defer, calls_Close. cbn. rewrite Ho.
      repeat (apply in_or_app; left). exact Hc.
Qed.

(** C1.  The state record of [FuzzFactory] is not removed on every path:
    the removal is deferred only once [createFiles] has returned without
    error.  In a run that gets as far as [createFiles], on a host where
    the file can be created but the write to it fails, the harness
    returns [0] and the file it has just created is still there; no
    [RemoveAll] was called. *)
Theorem C1_state_record_left_behind (data : list byte) (w w1 w2 : World)
    (u1 u2 : unit) (ociVersion id status bundle : string) (pid : Z)
    (c1 c2 c3 c4 c5 : ConsumeFuzzer) (b : list byte) :
  let fstate := {| OciVersion := ociVersion; Id := id; Status := status;
                   Pid := pid; Bundle := bundle; Annotations := ["fuzz"] |} in
  let path := "/tmp/fuzz-root/fuzz/state.json" in
  (20 <= length data)%nat ->
  MkdirAll "/tmp/fuzz-root" w = (Ok u1, w1) ->
  MkdirAll "/tmp/fuzz-root/fuzz" w1 = (Ok u2, w2) ->
  GetString (NewConsumer data) = (Ok ociVersion, c1) ->
  GetString c1 = (Ok id, c2) ->
  GetString c2 = (Ok status, c3) ->
  GetInt c3 = (Ok pid, c4) ->
  GetString c4 = (Ok bundle, c5) ->
  (len ociVersion <? 5)%Z || (len id <? 5)%Z || (len bundle <? 5)%Z = false ->
  json_Marshal fstate = Ok b ->
  fs w !! path = None ->
  refuses SysOpenFile path = false ->
  refuses SysWrite path = true ->
  fst (FuzzFactory data w) = 0
  /\ fs (snd (FuzzFactory data w)) !! path = Some (RegularFile [])
  /\ calls (snd (FuzzFactory data w)) =
     calls w ++ [OsMkdirAll "/tmp/fuzz-root"; OsMkdirAll "/tmp/fuzz-root/fuzz";
                 CallMarshal fstate; OsOpenFile path; OsWrite path b;
                 OsClose (Some (mkOsFile path))].
Proof.
  intros fstate path Hlen E1 E2 G1 G2 G3 G4 G5 Hfilter Hjson Hfresh Hopen Hwrite.
  unfold FuzzFactory.
  destruct (Nat.ltb_spec (length data) 20); [lia|].
  rewrite E1, E2, G1, G2, G3, G4, G5, Hfilter.
  fold fstate. rewrite Hjson. fold path.
  destruct (MkdirAll_Ok _ _ _ _ E1) as (_ & _ & F1 & C1 & _).
  destruct (MkdirAll_Ok _ _ _ _ E2) as (_ & _ & F2 & C2 & _).
  assert (P2 : fs w2 !! path = None).
  { rewrite F2, mkdirs_not_in, F1, mkdirs_not_in; [exact Hfresh| |];
      vm_compute; intuition discriminate. }
  cbn [createFiles]. unfold OpenFile. rewrite Hopen.
  cbn [fs record]. rewrite P2.
  unfold defer, Write. cbn [fname]. fold path. rewrite Hwrite.
  cbn [fst snd Close record set_fs fs calls].
  split; [reflexivity|]. split; [apply lookup_insert_eq|].
  rewrite C2, C1, <- !app_assoc. reflexivity.
Qed.

End Claims.

Section DeviceClaims.
Context `{StructGen} `{Devices.Emulation}.

(** C10.  [FuzzInit] and the device-rule [Fuzz] return [-1] or [1] and
    never [0].  [FuzzInit] returns [-1] when the buffer is shorter than 5
    bytes or a scratch file cannot be opened; [Fuzz] returns [-1] when a
    string cannot be extracted or a rule text does not parse, and in that
    case it has not called [Transition]. *)
Theorem C10_never_neutral (data : list byte) (w : World) :
  (fst (FuzzInit data w) = -1 \/ fst (FuzzInit data w) = 1)
  /\ fst (FuzzInit data w) <> 0
  /\ (fst (Devices.Fuzz data) = -1 \/ fst (Devices.Fuzz data) = 1)
  /\ fst (Devices.Fuzz data) <> 0
  /\ fst (FuzzInit data w) =
     (if (length data <? 5)%nat
         || negb (is_ok (fst (OpenFile "pipe.txt" w)))
         || negb (is_ok (fst (OpenFile "consoleSocket.txt"
                                (snd (OpenFile "pipe.txt" w)))))
      then -1 else 1)
  /\ fst (Devices.Fuzz data) =
     (match GetString (NewConsumer data) with
      | (Err _, _) => -1
      | (Ok str1, c) =>
          if is_ok (Devices.EmulatorFromList str1)
             && match GetString c with
                | (Err _, _) => false
                | (Ok str2, _) => is_ok (Devices.EmulatorFromList str2)
                end
          then 1 else -1
      end).
Proof.
  pose proof (FuzzInit_signal data w) as Hs.
  assert (Hd : fst (Devices.Fuzz data) =
     (match GetString (NewConsumer data) with
      | (Err _, _) => -1
      | (Ok str1, c) =>
          if is_ok (Devices.EmulatorFromList str1)
             && match GetString c with
                | (Err _, _) => false
                | (Ok str2, _) => is_ok (Devices.EmulatorFromList str2)
                end
          then 1 else -1
      end)).
  { unfold Devices.Fuzz.
    destruct (GetString (NewConsumer data)) as [[str1|e] c]; [|reflexivity].
    destruct (Devices.EmulatorFromList str1) as [emu1|e]; [|reflexivity].
    destruct (GetString c) as [[str2|e] c']; [|reflexivity].
    destruct (Devices.EmulatorFromList str2) as [emu2|e]; reflexivity. }
  repeat split; try exact Hs; try exact Hd.
  - rewrite Hs. destruct (_ || _ || _); [left|right]; reflexivity.
  - rewrite Hs. destruct (_ || _ || _); discriminate.
  - rewrite Hd. destruct (GetString (NewConsumer data)) as [[str1|e] c];
      [|left; reflexivity].
    destruct (_ && _); [right|left]; reflexivity.
  - rewrite Hd. destruct (GetString (NewConsumer data)) as [[str1|e] c];
      [|discriminate].
    destruct (_ && _); discriminate.
Qed.

End DeviceClaims.

(** ** The transition between two rule-set emulators *)

Lemma filter_none {A : Type} (f : A -> bool) (l : list A) :
  (forall x, In x l -> f x = false) -> List.filter f l = [].
Proof.
  induction l as [|a l IH]; intros Hf; [reflexivity|].
  cbn. rewrite (Hf a) by (left; reflexivity).
  apply IH. intros x Hx. apply Hf. right. exact Hx.
Qed.

Lemma selector_eqb_refl (s : Devices.Selector) : Devices.selector_eqb s s = true.
Proof.
  destruct s as [t [ma|] [mi|]]; unfold Devices.selector_eqb; cbn;
    rewrite ?Z.eqb_refl; destruct t; reflexivity.
Qed.

Lemma resulting_eqb_refl (x : option (Devices.Permissions * bool)) :
  Devices.resulting_eqb x x = true.
Proof.
  destruct x as [[[r wr m] f]|]; [|reflexivity].
  cbn. unfold Devices.permissions_eqb. cbn.
  rewrite !Bool.eqb_reflx. reflexivity.
Qed.

(** Every entry of an emulator has a resulting permission in it. *)
Lemma resulting_entry (e : Devices.RuleSetEmulator) (r : Devices.DeviceRule) :
  In r (Devices.entries e) ->
  Devices.resulting e (Devices.selector r) <> None.
Proof.
  intros Hin. unfold Devices.resulting.
  destruct (List.find _ (Devices.entries e)) as [x|] eqn:E; [discriminate|].
  pose proof (List.find_none _ _ E r Hin) as Hf. cbn in Hf.
  rewrite selector_eqb_refl in Hf. discriminate.
Qed.

Lemma transition_same (e : Devices.RuleSetEmulator) : Devices.transition e e = [].
Proof.
  unfold Devices.transition. rewrite Bool.eqb_reflx.
  rewrite !filter_none; [reflexivity| |].
  - intros r Hin. pose proof (resulting_entry e r Hin).
    destruct (Devices.resulting e (Devices.selector r)); congruence.
  - intros r _. unfold Devices.differs.
    rewrite resulting_eqb_refl. reflexivity.
Qed.

(** C6.  For the transition of the specification: between two emulators
    made from the same rule list, and so between the emulators the
    harness gets from two identical texts, the transition is empty; from
    the list [allow all] to the list [deny all], whatever their default
    policies, the transition is the change of default policy to deny and
    nothing else, so that change comes first and no change in it
    allows anything. *)
Theorem C6_transition_identical_and_allow_to_deny
    (parse : string -> result Devices.DeviceRuleList)
    (l : Devices.DeviceRuleList) (text : string) (dA dB : bool) :
  Devices.transition (Devices.emulate l) (Devices.emulate l) = []
  /\ match @Devices.EmulatorFromList (Devices.specEmulation parse) text with
     | Ok a => @Devices.Transition (Devices.specEmulation parse) a a = Ok []
     | Err _ => True
     end
  /\ Devices.transition
       (Devices.emulate {| Devices.defaultPolicy := dA;
                           Devices.rules := [Devices.allowAll] |})
       (Devices.emulate {| Devices.defaultPolicy := dB;
                           Devices.rules := [Devices.denyAll] |})
     = [Devices.DefaultPolicyChange false]
  /\ forallb (fun ch => negb (Devices.allows ch))
       (Devices.transition
          (Devices.emulate {| Devices.defaultPolicy := dA;
                              Devices.rules := [Devices.allowAll] |})
          (Devices.emulate {| Devices.defaultPolicy := dB;
                              Devices.rules := [Devices.denyAll] |}))
     = true.
Proof.
  split; [apply transition_same|]. split.
  { cbn. destruct (parse text); [|exact I].
    rewrite transition_same. reflexivity. }
  split; reflexivity.
Qed.

(** * Runs on the reference environment *)

(** C2 at [twelveInput], whose selector is 12: the container is created
    with the UTS-only set; and at [eightInput], whose selector is 8: with
    the mount-only set. *)
Lemma C2_namespace_selection_witness :
  let W := Reference.emptyWorld Reference.noFaults in
  let cfg := fun chosen =>
    {| Rootfs := "/tmp/fuzzing"; Namespaces := chosen;
       Cgroups := Some {| Parent := EmptyString |} |} in
  let container := fun chosen =>
    Reference.mkRefContainer "A"
      (Reference.mkRefFactory "/tmp/fuzzing" Cgroupfs) (cfg chosen) in
  let calls_of := fun chosen =>
    [OsMkdirAll "/tmp/fuzzing"; CallNew "/tmp/fuzzing" Cgroupfs;
     CallCreate (Reference.mkRefFactory "/tmp/fuzzing" Cgroupfs) "A" (cfg chosen);
     CallState (container chosen); CallStats (container chosen);
     CallOCIState (container chosen); CallProcesses (container chosen);
     CallDestroy (container chosen); OsRemoveAll "/tmp/fuzzing"] in
  (fst (@FuzzStateApi _ _ (Reference.refStructGen Reference.noFaults)
          Reference.twelveInput W) = 1
   /\ calls (snd (@FuzzStateApi _ _ (Reference.refStructGen Reference.noFaults)
                    Reference.twelveInput W))
      = calls_of [ {| nsType := NEWUTS; Path := EmptyString |} ])
  /\ (fst (@FuzzStateApi _ _ (Reference.refStructGen Reference.noFaults)
             Reference.eightInput W) = 1
      /\ calls (snd (@FuzzStateApi _ _ (Reference.refStructGen Reference.noFaults)
                       Reference.eightInput W))
         = calls_of [ {| nsType := NEWNS; Path := EmptyString |} ]).
Proof.
  intros W cfg container calls_of.
  pose proof (proj1 (@C2_namespace_selection _ _
                (Reference.refStructGen Reference.noFaults)
                Reference.twelveInput W
                (snd (newTestRoot (SetLevel PanicLevel W))) "/tmp/fuzzing"
                {| Rootfs := EmptyString; Namespaces := [];
                   Cgroups := Some {| Parent := EmptyString |} |}
                (Reference.mkByteStream Reference.twelveInput 3)
                (Reference.mkByteStream Reference.twelveInput 4)
                (Reference.mkByteStream Reference.twelveInput 6)
                12 "A"
                ltac:(vm_compute; lia) ltac:(vm_compute; reflexivity)
                ltac:(vm_compute; reflexivity) ltac:(vm_compute; reflexivity)
                ltac:(vm_compute; reflexivity)))
    as R12.
  pose proof (proj1 (@C2_namespace_selection _ _
                (Reference.refStructGen Reference.noFaults)
                Reference.eightInput W
                (snd (newTestRoot (SetLevel PanicLevel W))) "/tmp/fuzzing"
                {| Rootfs := EmptyString; Namespaces := [];
                   Cgroups := Some {| Parent := EmptyString |} |}
                (Reference.mkByteStream Reference.eightInput 3)
                (Reference.mkByteStream Reference.eightInput 4)
                (Reference.mkByteStream Reference.eightInput 6)
                8 "A"
                ltac:(vm_compute; lia) ltac:(vm_compute; reflexivity)
                ltac:(vm_compute; reflexivity) ltac:(vm_compute; reflexivity)
                ltac:(vm_compute; reflexivity)))
    as R8.
  split.
  - rewrite R12. vm_compute. split; reflexivity.
  - rewrite R8. vm_compute. split; reflexivity.
Defined.

(** C3 at a buffer of three bytes, shorter than every minimum. *)
Lemma C3_short_input_witness :
  let W := Reference.emptyWorld Reference.noFaults in
  let short := [x00; x00; x00] in
  @FuzzInit _ _ (Reference.refStructGen Reference.noFaults) short W = (-1, W)
  /\ (fst (@FuzzStateApi _ _ (Reference.refStructGen Reference.noFaults) short W) = -1
      /\ fs (snd (@FuzzStateApi _ _ (Reference.refStructGen Reference.noFaults) short W)) = fs W
      /\ calls (snd (@FuzzStateApi _ _ (Reference.refStructGen Reference.noFaults) short W)) = calls W)
  /\ @FuzzFactory (Reference.refRuntime Reference.noFaults)
       Reference.byteStreamConsumer short W = (-1, W).
Proof.
  intros W short.
  destruct (@C3_short_input_rejected _ _
              (Reference.refStructGen Reference.noFaults) short W)
    as (A & B & C).
  split; [apply A; vm_compute; lia|]. split; [apply B; vm_compute; lia|]. apply C; vm_compute; lia.
Defined.

(** C4 fails as stated: the selector cannot be extracted from
    [noSelectorInput], which is long enough, and [FuzzStateApi] returns
    [-1], not [0]. *)
Lemma C4_selector_exhausted_counterexample :
  (4 <= length Reference.noSelectorInput)%nat
  /\ is_ok (fst (@GetInt Reference.byteStreamConsumer (snd (Reference.populateConfig
                                (@NewConsumer Reference.byteStreamConsumer Reference.noSelectorInput))))) = false
  /\ fst (@FuzzStateApi _ _ (Reference.refStructGen Reference.noFaults)
            Reference.noSelectorInput
            (Reference.emptyWorld Reference.noFaults)) = -1.
Proof. split; [vm_compute; lia|]. split; vm_compute; reflexivity. Defined.

(** C4 (as amended) at [noNameInput]: the selector is there, the name is
    not, and the harness returns [0]. *)
Lemma C4_lifecycle_return_codes_witness :
  fst (@FuzzStateApi _ _ (Reference.refStructGen Reference.noFaults)
         Reference.noNameInput
         (Reference.emptyWorld Reference.noFaults)) = 0.
Proof.
  rewrite (@C4_lifecycle_return_codes _ _
             (Reference.refStructGen Reference.noFaults)
             Reference.noNameInput
             (Reference.emptyWorld Reference.noFaults)
             (snd (newTestRoot (SetLevel PanicLevel
                                  (Reference.emptyWorld Reference.noFaults))))
             "/tmp/fuzzing").
  - vm_compute. reflexivity.
  - vm_compute. lia.
  - vm_compute. reflexivity.
Defined.

(** C5 fails as stated: on [initInput] the record handed to [Init] is the
    one populated from the whole buffer, which is not the one populated
    from the bytes after the first. *)
Lemma C5_config_from_whole_buffer_counterexample :
  exists l,
    In (CallInit l)
       (calls (snd (@FuzzInit _ _ (Reference.refStructGen Reference.noFaults)
                      Reference.initInput
                      (Reference.emptyWorld Reference.noFaults))))
    /\ config l = {| Reference.Args := ["ab"]; Reference.Env := [];
                     Reference.Cwd := EmptyString |}
    /\ fst (Reference.populateInitConfig
              (@NewConsumer Reference.byteStreamConsumer (tl Reference.initInput)))
       = {| Reference.Args := []; Reference.Env := [];
            Reference.Cwd := EmptyString |}.
Proof.
  eexists. split.
  - vm_compute. right. right. left. reflexivity.
  - split; vm_compute; reflexivity.
Defined.

(** C5 (as amended) at [initInput]. *)
Lemma C5_fifoFd_witness :
  exists (b : byte) (rest : list byte) l,
    Reference.initInput = b :: rest
    /\ In (CallInit l)
          (calls (snd (@FuzzInit _ _ (Reference.refStructGen Reference.noFaults)
                         Reference.initInput
                         (Reference.emptyWorld Reference.noFaults))))
    /\ fifoFd l = int_of_byte b
    /\ (0 <= fifoFd l <= 255)%Z
    /\ config l = fst (Reference.populateInitConfig (@NewConsumer Reference.byteStreamConsumer (b :: rest))).
Proof.
  apply (@C5_fifoFd_first_byte_config_whole_buffer _ _
           (Reference.refStructGen Reference.noFaults)).
  vm_compute. reflexivity.
Defined.



(** C8 at [shortIdInput], whose identifier has three bytes, and at
    [factoryInput], whose three strings pass the filter. *)
Lemma C8_length_filter_witness :
  let W := Reference.emptyWorld Reference.noFaults in
  @FuzzFactory (Reference.refRuntime Reference.noFaults)
    Reference.byteStreamConsumer Reference.shortIdInput W
  = (0, snd (MkdirAll "/tmp/fuzz-root/fuzz" (snd (MkdirAll "/tmp/fuzz-root" W))))
  /\ In (CallMarshal {| OciVersion := "1.0.0x"; Id := "abcde";
                        Status := EmptyString; Pid := 7;
                        Bundle := "/a/b/c/d"; Annotations := ["fuzz"] |})
        (calls (snd (@FuzzFactory (Reference.refRuntime Reference.noFaults)
                       Reference.byteStreamConsumer Reference.factoryInput W))).
Proof.
  intros W. split.
  - refine (@C8_length_filter (Reference.refRuntime Reference.noFaults)
              Reference.byteStreamConsumer Reference.shortIdInput W
              (snd (MkdirAll "/tmp/fuzz-root" W))
              (snd (MkdirAll "/tmp/fuzz-root/fuzz"
                      (snd (MkdirAll "/tmp/fuzz-root" W))))
              tt tt "1.0.0x" "abc" EmptyString "/a/b/c/d/e/f" 7
              (Reference.mkByteStream Reference.shortIdInput 7)
              (Reference.mkByteStream Reference.shortIdInput 11)
              (Reference.mkByteStream Reference.shortIdInput 12)
              (Reference.mkByteStream Reference.shortIdInput 13)
              (Reference.mkByteStream Reference.shortIdInput 26)
              _ _ _ _ _ _ _ _);
      first [vm_compute; reflexivity | vm_compute; lia].
  - refine (@C8_length_filter (Reference.refRuntime Reference.noFaults)
              Reference.byteStreamConsumer Reference.factoryInput W
              (snd (MkdirAll "/tmp/fuzz-root" W))
              (snd (MkdirAll "/tmp/fuzz-root/fuzz"
                      (snd (MkdirAll "/tmp/fuzz-root" W))))
              tt tt "1.0.0x" "abcde" EmptyString "/a/b/c/d" 7
              (Reference.mkByteStream Reference.factoryInput 7)
              (Reference.mkByteStream Reference.factoryInput 13)
              (Reference.mkByteStream Reference.factoryInput 14)
              (Reference.mkByteStream Reference.factoryInput 15)
              (Reference.mkByteStream Reference.factoryInput 24)
              _ _ _ _ _ _ _ _);
      first [vm_compute; reflexivity | vm_compute; lia].
Defined.

(** C9 at a config whose cgroup parent is ["system.slice"], where both
    factories are built and the container is created through the
    systemd one; and, on a host without systemd, at a config without
    cgroup section, where the container is created through the
    file-system factory. *)
Lemma C9_cgroup_driver_witness :
  let slice := {| Rootfs := "/tmp/fuzzing"; Namespaces := [];
                  Cgroups := Some {| Parent := "system.slice" |} |} in
  let plain := {| Rootfs := "/tmp/fuzzing"; Namespaces := [];
                  Cgroups := None |} in
  let W := Reference.emptyWorld Reference.noFaults in
  let V := @mkWorld Reference.noSystemdRuntime ∅ InfoLevel [] in
  (calls (snd (@newContainerWithName (Reference.refRuntime Reference.noFaults)
                 "A" "/tmp/fuzzing" slice W))
   = [CallNew "/tmp/fuzzing" Cgroupfs; CallNew "/tmp/fuzzing" SystemdCgroups;
      CallCreate (Reference.mkRefFactory "/tmp/fuzzing" SystemdCgroups)
        "A" slice]
   /\ fst (@newContainerWithName (Reference.refRuntime Reference.noFaults)
             "A" "/tmp/fuzzing" slice W)
      = Ok (Reference.mkRefContainer "A"
              (Reference.mkRefFactory "/tmp/fuzzing" SystemdCgroups) slice))
  /\ (calls (snd (@newContainerWithName Reference.noSystemdRuntime
                    "A" "/tmp/fuzzing" plain V))
      = [CallNew "/tmp/fuzzing" Cgroupfs;
         CallCreate (Reference.mkRefFactory "/tmp/fuzzing" Cgroupfs) "A" plain]
      /\ fst (@newContainerWithName Reference.noSystemdRuntime
                "A" "/tmp/fuzzing" plain V)
         = Ok (Reference.mkRefContainer "A"
                 (Reference.mkRefFactory "/tmp/fuzzing" Cgroupfs) plain)).
Proof.
  intros slice plain W V. split.
  - exact (proj2 (@C9_cgroup_driver_selection
                    (Reference.refRuntime Reference.noFaults)
                    "A" "/tmp/fuzzing" slice W
                    (Reference.mkRefFactory "/tmp/fuzzing" Cgroupfs)
                    eq_refl)).
  - exact (proj2 (@C9_cgroup_driver_selection Reference.noSystemdRuntime
                    "A" "/tmp/fuzzing" plain V
                    (Reference.mkRefFactory "/tmp/fuzzing" Cgroupfs)
                    eq_refl)).
Defined.

(** C1 at [factoryInput] on a host where the write to the state record
    fails: the harness returns [0] and the file, which was not there
    before, is left behind. *)
Lemma C1_state_record_left_behind_witness :
  let host := Reference.writeFails Reference.stateJson in
  let W := Reference.emptyWorld host in
  fs W !! Reference.stateJson = None
  /\ fst (@FuzzFactory (Reference.refRuntime host)
            Reference.byteStreamConsumer Reference.factoryInput W) = 0
  /\ fs (snd (@FuzzFactory (Reference.refRuntime host)
                Reference.byteStreamConsumer Reference.factoryInput W))
       !! Reference.stateJson = Some (RegularFile []).
Proof.
  intros host W. split; [vm_compute; reflexivity|].
  assert (Hrun := @C1_state_record_left_behind (Reference.refRuntime host)
              Reference.byteStreamConsumer Reference.factoryInput W
              (snd (MkdirAll "/tmp/fuzz-root" W))
              (snd (MkdirAll "/tmp/fuzz-root/fuzz"
                      (snd (MkdirAll "/tmp/fuzz-root" W))))
              tt tt "1.0.0x" "abcde" EmptyString "/a/b/c/d" 7
              (Reference.mkByteStream Reference.factoryInput 7)
              (Reference.mkByteStream Reference.factoryInput 13)
              (Reference.mkByteStream Reference.factoryInput 14)
              (Reference.mkByteStream Reference.factoryInput 15)
              (Reference.mkByteStream Reference.factoryInput 24)
              (Reference.marshalFuzzState
                 {| OciVersion := "1.0.0x"; Id := "abcde";
                    Status := EmptyString; Pid := 7;
                    Bundle := "/a/b/c/d"; Annotations := ["fuzz"] |})).
  cbv zeta in Hrun.
  destruct Hrun as (R1 & R2 & _);
    first [vm_compute; reflexivity | vm_compute; lia | idtac].
  split; [exact R1|exact R2].
Defined.

(** * Further properties of the harnesses *)

Section InitHarness.
Context `{StructGen}.

(** The calls of [FuzzInit] on every path.  Nothing is called for a short
    buffer.  [Init] is entered only when both scratch files are open.
    Whatever was opened is removed and closed again, the later file
    first, and each file is removed before its handle is closed. *)
Theorem FuzzInit_call_sequence (data : list byte) (w : World) :
  calls (snd (FuzzInit data w)) =
  calls w ++
  (if (length data <? 5)%nat then []
   else if negb (is_ok (fst (OpenFile "pipe.txt" w)))
   then [OsOpenFile "pipe.txt"]
   else if negb (is_ok (fst (OpenFile "consoleSocket.txt"
                               (snd (OpenFile "pipe.txt" w)))))
   then [OsOpenFile "pipe.txt"; OsOpenFile "consoleSocket.txt";
         OsRemoveAll "pipe.txt"; OsClose (Some (mkOsFile "pipe.txt"))]
   else [OsOpenFile "pipe.txt"; OsOpenFile "consoleSocket.txt";
         CallInit (initContext data);
         OsRemoveAll "consoleSocket.txt";
         OsClose (Some (mkOsFile "consoleSocket.txt"));
         OsRemoveAll "pipe.txt";
         OsClose (Some (mkOsFile "pipe.txt"))]).
Proof.
  unfold FuzzInit. destruct (length data <? 5)%nat.
  { cbn. rewrite app_nil_r. reflexivity. }
  pose proof (calls_OpenFile "pipe.txt" w) as C1.
  destruct (OpenFile "pipe.txt" w) as [[pipe|e] w1] eqn:E1;
    cbn [fst snd is_ok negb] in *; [|exact C1].
  destruct (OpenFile_Ok _ _ _ _ E1) as (-> & _).
  rewrite !snd_defer, calls_Close, calls_RemoveAll. cbv beta.
  pose proof (calls_OpenFile "consoleSocket.txt" w1) as C2.
  destruct (OpenFile "consoleSocket.txt" w1) as [[cs|e] w2] eqn:E2;
    cbn [fst snd is_ok negb] in *.
  - destruct (OpenFile_Ok _ _ _ _ E2) as (-> & _).
    rewrite !snd_defer, calls_Close, calls_RemoveAll.
    unfold initContext.
    destruct (GenerateStruct_initConfig (NewConsumer data)) as [cfg c].
    cbn [fst snd invoke calls]. rewrite C2, C1, <- !app_assoc. reflexivity.
  - rewrite C2, C1, <- !app_assoc. reflexivity.
Qed.

(** [FuzzInit] leaves no scratch file of its own behind.  On a host that
    lets both paths be removed, each of [pipe.txt] and
    [consoleSocket.txt] is either gone when the harness returns or is
    what it was before the run; and unless the harness returns [-1],
    both are gone, whatever [Init] did to them. *)
Theorem FuzzInit_scratch_files_removed (data : list byte) (w : World) :
  refuses SysRemoveAll "pipe.txt" = false ->
  refuses SysRemoveAll "consoleSocket.txt" = false ->
  (fs (snd (FuzzInit data w)) !! "pipe.txt" = None
   \/ fs (snd (FuzzInit data w)) !! "pipe.txt" = fs w !! "pipe.txt")
  /\ (fs (snd (FuzzInit data w)) !! "consoleSocket.txt" = None
      \/ fs (snd (FuzzInit data w)) !! "consoleSocket.txt"
         = fs w !! "consoleSocket.txt")
  /\ (fst (FuzzInit data w) = -1
      \/ (fs (snd (FuzzInit data w)) !! "pipe.txt" = None
          /\ fs (snd (FuzzInit data w)) !! "consoleSocket.txt" = None)).
Proof.
  intros Rp Rc. unfold FuzzInit. destruct (length data <? 5)%nat.
  { cbn. tauto. }
  destruct (OpenFile "pipe.txt" w) as [[pipe|e] w1] eqn:E1.
  2:{ apply OpenFile_Err in E1. subst w1. cbn. tauto. }
  pose proof (OpenFile_other "pipe.txt" "consoleSocket.txt" w
                ltac:(discriminate)) as O1.
  rewrite E1 in O1. cbn [snd] in O1.
  rewrite !snd_defer, !fst_defer, fs_Close. cbv beta.
  split; [left; apply RemoveAll_self; exact Rp|].
  rewrite RemoveAll_other by (vm_compute; reflexivity).
  destruct (OpenFile "consoleSocket.txt" w1) as [[cs|e] w2] eqn:E2.
  - rewrite !snd_defer, !fst_defer, fs_Close.
    rewrite (RemoveAll_self "consoleSocket.txt") by exact Rc.
    split; [left; reflexivity|]. right.
    split; [apply RemoveAll_self; exact Rp|reflexivity].
  - apply OpenFile_Err in E2. subst w2. cbn [fst snd fs record].
    split; [right; exact O1|left; reflexivity].
Qed.

End InitHarness.

(** [FuzzInit_scratch_files_removed] on [initInput]: the run returns [1]
    and neither scratch file is left. *)
Lemma FuzzInit_scratch_files_removed_witness :
  let r := @FuzzInit _ _ (Reference.refStructGen Reference.noFaults)
             Reference.initInput (Reference.emptyWorld Reference.noFaults) in
  (fs (snd r) !! "pipe.txt" = None
   \/ fs (snd r) !! "pipe.txt" = (∅ : FS) !! "pipe.txt")
  /\ (fs (snd r) !! "consoleSocket.txt" = None
      \/ fs (snd r) !! "consoleSocket.txt" = (∅ : FS) !! "consoleSocket.txt")
  /\ (fst r = -1
      \/ (fs (snd r) !! "pipe.txt" = None
          /\ fs (snd r) !! "consoleSocket.txt" = None)).
Proof.
  apply (@FuzzInit_scratch_files_removed _ _
           (Reference.refStructGen Reference.noFaults)); reflexivity.
Defined.

Section CreateFiles.
Context `{Runtime}.

(** A successful [Write] puts [b] over the start of the file. *)
Lemma Write_Ok (f : OsFile) (b : list byte) (w w' : World) (n : Z) :
  Write f b w = (Ok n, w') ->
  exists old, fs w !! fname f = Some (RegularFile old)
              /\ fs w' !! fname f = Some (RegularFile (b ++ drop (length b) old))
              /\ calls w' = calls w ++ [OsWrite (fname f) b].
Proof.
  unfold Write. destruct (refuses SysWrite (fname f)); [discriminate|].
  cbn [fs record]. destruct (fs w !! fname f) as [[old|]|] eqn:E;
    try discriminate.
  intros [= <- <-]. exists old. cbn. split; [reflexivity|].
  split; [apply lookup_insert_eq|reflexivity].
Qed.

(** What a successful [createFiles] went through, file by file. *)
Lemma createFiles_Ok_cons (file : string) (rest : list string) (b : list byte)
    (w w' : World) (u : unit) :
  createFiles (file :: rest) b w = (Ok u, w') ->
  exists w1 w2 w3 n u',
    OpenFile file w = (Ok (mkOsFile file), w1)
    /\ Write (mkOsFile file) b w1 = (Ok n, w2)
    /\ createFiles rest b w2 = (Ok u', w3)
    /\ w' = snd (Close (Some (mkOsFile file)) w3).
Proof.
  cbn [createFiles].
  destruct (OpenFile file w) as [[f|e] w1] eqn:E1; [|discriminate].
  destruct (OpenFile_Ok _ _ _ _ E1) as (-> & _).
  unfold defer.
  destruct (Write (mkOsFile file) b w1) as [[n|e] w2] eqn:E2; [|discriminate].
  destruct (createFiles rest b w2) as [[u'|e] w3] eqn:E3; [|discriminate].
  intros [= <- <-]. exists w1, w2, w3, n, u'. tauto.
Qed.

(** When [createFiles] succeeds, every file of the list is a regular
    file that starts with the bytes [b], also a file listed twice or one
    that was there before with other content. *)
Theorem createFiles_writes_every_file (files : list string) (b : list byte)
    (w w' : World) (u : unit) (file : string) :
  createFiles files b w = (Ok u, w') ->
  In file files ->
  exists tail, fs w' !! file = Some (RegularFile (b ++ tail)).
Proof.
  revert w w' u. induction files as [|f0 rest IH]; intros w w' u Hrun Hin.
  { destruct Hin. }
  destruct (createFiles_Ok_cons _ _ _ _ _ _ Hrun)
    as (w1 & w2 & w3 & n & u' & E1 & E2 & E3 & ->).
  rewrite fs_Close.
  destruct (in_dec string_dec file rest) as [Hr|Hr].
  - exact (IH _ _ _ E3 Hr).
  - destruct Hin as [->|Hin]; [|contradiction].
    pose proof (createFiles_other rest b file Hr w2) as Ho.
    rewrite E3 in Ho. cbn [snd] in Ho. rewrite Ho.
    destruct (Write_Ok _ _ _ _ _ E2) as (old & _ & Hw & _).
    eexists. exact Hw.
Qed.

(** The files are opened and written in the order of the list, and all
    of them stay open until the end: the deferred [Close] calls run when
    [createFiles] returns, the last file first. *)
Theorem createFiles_closes_in_reverse (files : list string) (b : list byte)
    (w w' : World) (u : unit) :
  createFiles files b w = (Ok u, w') ->
  calls w' =
  calls w
  ++ flat_map (fun f => [OsOpenFile f; OsWrite f b]) files
  ++ map (fun f => OsClose (Some (mkOsFile f))) (rev files).
Proof.
  revert w w' u. induction files as [|f0 rest IH]; intros w w' u Hrun.
  { cbn in Hrun. assert (w' = w) as -> by congruence.
    cbn. rewrite app_nil_r. reflexivity. }
  destruct (createFiles_Ok_cons _ _ _ _ _ _ Hrun)
    as (w1 & w2 & w3 & n & u' & E1 & E2 & E3 & ->).
  rewrite calls_Close, (IH _ _ _ E3).
  destruct (Write_Ok _ _ _ _ _ E2) as (old & _ & _ & ->).
  destruct (OpenFile_Ok _ _ _ _ E1) as (_ & _ & -> & _).
  cbn [flat_map rev fname]. rewrite map_app. cbn [map].
  rewrite <- !app_assoc. reflexivity.
Qed.

(** [createFiles] reports one of two fixed errors and never the error of
    the operating system: it fails with the first when a file cannot be
    opened and with the second when a write fails; on the empty list it
    succeeds without a call. *)
Theorem createFiles_error_values (files : list string) (b : list byte)
    (w : World) :
  (fst (createFiles files b w) = Ok tt
   \/ fst (createFiles files b w) = Err (ErrOther "Could not create file")
   \/ fst (createFiles files b w) = Err (ErrOther "Could not write to file"))
  /\ createFiles [] b w = (Ok tt, w).
Proof.
  split; [|reflexivity].
  revert w. induction files as [|f0 rest IH]; intros w; [left; reflexivity|].
  cbn [createFiles].
  destruct (OpenFile f0 w) as [[f|e] w1]; [|right; left; reflexivity].
  rewrite fst_defer.
  destruct (Write f b w1) as [[n|e] w2]; [apply IH|right; right; reflexivity].
Qed.

End CreateFiles.

Section RootAndFactory.
Context `{Runtime}.

Lemma mkdirs_twice (paths : list string) (m : FS) :
  mkdirs paths (mkdirs paths m) = mkdirs paths m.
Proof.
  apply map_eq. intros p. destruct (in_dec string_dec p paths) as [Hi|Hn].
  - rewrite !mkdirs_in by exact Hi. reflexivity.
  - rewrite mkdirs_not_in by exact Hn. reflexivity.
Qed.

Lemma no_file_after_mkdirs (paths : list string) (m : FS) :
  existsb (is_file (mkdirs paths m)) paths = false.
Proof.
  destruct (existsb _ paths) eqn:E; [|reflexivity].
  apply existsb_exists in E as (p & Hin & Hf).
  unfold is_file in Hf. rewrite mkdirs_in in Hf by exact Hin. discriminate.
Qed.

(** [newTestRoot] returns the fixed path [/tmp/fuzzing] when it succeeds;
    the path and its parent are directories then, and the function is
    idempotent: called again it succeeds again and changes nothing on
    disk. *)
Theorem newTestRoot_directory_idempotent (w w1 : World) (dir : string) :
  newTestRoot w = (Ok dir, w1) ->
  dir = "/tmp/fuzzing"
  /\ fs w1 !! "/tmp/fuzzing" = Some Directory
  /\ fs w1 !! "/tmp" = Some Directory
  /\ calls w1 = calls w ++ [OsMkdirAll "/tmp/fuzzing"]
  /\ fst (newTestRoot w1) = Ok "/tmp/fuzzing"
  /\ fs (snd (newTestRoot w1)) = fs w1.
Proof.
  unfold newTestRoot.
  destruct (MkdirAll "/tmp/fuzzing" w) as [[u|e] w'] eqn:E; [|discriminate].
  intros [= <- <-].
  destruct (MkdirAll_Ok _ _ _ _ E) as (Hr & _ & F & C & _).
  split; [reflexivity|].
  split; [rewrite F; apply mkdirs_in; vm_compute; tauto|].
  split; [rewrite F; apply mkdirs_in; vm_compute; tauto|].
  split; [exact C|].
  unfold MkdirAll. rewrite Hr. cbn [fs record]. rewrite F.
  rewrite no_file_after_mkdirs. cbn [fst snd fs set_fs].
  split; [reflexivity|apply mkdirs_twice].
Qed.

(** When a factory cannot be built, [newContainerWithName] returns the
    error of [New] as it is and does not call [Create]: after the
    file-system factory failed nothing else is tried, and after the
    systemd factory failed the file-system factory is not fallen back
    on. *)
Theorem newContainerWithName_factory_error (name root : string) (cfg : Config)
    (w : World) (e : error) :
  New (fs w) root Cgroupfs = Err e
  \/ (wantsSystemd cfg = true
      /\ is_ok (New (fs w) root Cgroupfs) = true
      /\ New (fs (invoke (CallNew root Cgroupfs) w)) root SystemdCgroups = Err e) ->
  fst (newContainerWithName name root cfg w) = Err e
  /\ calls (snd (newContainerWithName name root cfg w)) =
     calls w ++
     (if is_ok (New (fs w) root Cgroupfs)
      then [CallNew root Cgroupfs; CallNew root SystemdCgroups]
      else [CallNew root Cgroupfs]).
Proof.
  unfold newContainerWithName. intros [E1|(Hs & E1 & E2)].
  - rewrite E1. cbn. tauto.
  - destruct (New (fs w) root Cgroupfs) as [f1|e1]; [|discriminate].
    rewrite Hs, E2. cbn. rewrite <- app_assoc. tauto.
Qed.

End RootAndFactory.

Section LifecycleHarness.
Context `{StructGen}.

(** A container comes out of [newContainerWithName] only through
    [Create], which is its last call. *)
Lemma newContainerWithName_Ok (name root : string) (cfg : Config)
    (w w' : World) (container : Container) :
  newContainerWithName name root cfg w = (Ok container, w') ->
  exists pre f m,
    calls w' = calls w ++ pre ++ [CallCreate f name cfg]
    /\ Forall (fun c => exists d, c = CallNew root d) pre
    /\ Create m f name cfg = Ok container
    /\ loglevel w' = loglevel w.
Proof.
  unfold newContainerWithName.
  destruct (New (fs w) root Cgroupfs) as [f1|e1]; [|discriminate].
  destruct (wantsSystemd cfg).
  - destruct (New _ root SystemdCgroups) as [f2|e2]; [|discriminate].
    intros [= Hc <-].
    exists [CallNew root Cgroupfs; CallNew root SystemdCgroups], f2.
    eexists. split; [cbn; rewrite <- !app_assoc; reflexivity|].
    split; [|split; [exact Hc|reflexivity]].
    repeat constructor; eexists; reflexivity.
  - intros [= Hc <-]. exists [CallNew root Cgroupfs], f1.
    eexists. split; [cbn; rewrite <- !app_assoc; reflexivity|].
    split; [|split; [exact Hc|reflexivity]].
    repeat constructor; eexists; reflexivity.
Qed.

Lemma loglevel_newContainerWithName (name root : string) (cfg : Config)
    (w : World) :
  loglevel (snd (newContainerWithName name root cfg w)) = loglevel w.
Proof.
  unfold newContainerWithName.
  destruct (New (fs w) root Cgroupfs) as [f1|e1]; [|reflexivity].
  destruct (wantsSystemd cfg); [|reflexivity].
  destruct (New _ root SystemdCgroups); reflexivity.
Qed.

Lemma loglevel_RemoveAll (path : string) (w : World) :
  loglevel (snd (RemoveAll path w)) = loglevel w.
Proof. unfold RemoveAll. destruct (refuses SysRemoveAll path); reflexivity. Qed.

Lemma loglevel_MkdirAll (path : string) (w : World) :
  loglevel (snd (MkdirAll path w)) = loglevel w.
Proof.
  unfold MkdirAll. destruct (refuses SysMkdirAll path); [reflexivity|].
  cbn [fs record]. destruct (existsb _ _); reflexivity.
Qed.

(** A container comes out of [newContainerWithName] through the factory
    built last: the file-system one, or the systemd one when the config
    asks for it; [Create] sees the file system the last [New] left. *)
Lemma newContainerWithName_Ok_exact (name root : string) (cfg : Config)
    (w w' : World) (container : Container) :
  newContainerWithName name root cfg w = (Ok container, w') ->
  exists f1,
    New (fs w) root Cgroupfs = Ok f1
    /\ let wa := invoke (CallNew root Cgroupfs) w in
       let wb := invoke (CallNew root SystemdCgroups) wa in
       if wantsSystemd cfg
       then exists f2,
              New (fs wa) root SystemdCgroups = Ok f2
              /\ Create (fs wb) f2 name cfg = Ok container
              /\ w' = invoke (CallCreate f2 name cfg) wb
       else Create (fs wa) f1 name cfg = Ok container
            /\ w' = invoke (CallCreate f1 name cfg) wa.
Proof.
  unfold newContainerWithName.
  destruct (New (fs w) root Cgroupfs) as [f1|e1]; [|discriminate].
  intros Hrun. exists f1. split; [reflexivity|]. cbv zeta.
  destruct (wantsSystemd cfg).
  - destruct (New _ root SystemdCgroups) as [f2|e2]; [|discriminate].
    injection Hrun as Hc <-. exists f2. tauto.
  - injection Hrun as Hc <-. tauto.
Qed.

(** What a run of [FuzzStateApi] that returns [1] went through. *)
Lemma FuzzStateApi_complete (data : list byte) (w : World) :
  fst (FuzzStateApi data w) = 1 ->
  exists w1 generated c1 ns c2 containerName c3 container w2,
    newTestRoot (SetLevel PanicLevel w) = (Ok "/tmp/fuzzing", w1)
    /\ GenerateStruct_Config (NewConsumer data) = (generated, c1)
    /\ GetInt c1 = (Ok ns, c2)
    /\ GetString c2 = (Ok containerName, c3)
    /\ newContainerWithName containerName "/tmp/fuzzing"
         (addNamespaces ns {| Rootfs := "/tmp/fuzzing";
                              Namespaces := Namespaces generated;
                              Cgroups := Cgroups generated |}) w1
       = (Ok container, w2)
    /\ snd (FuzzStateApi data w) =
       snd (RemoveAll "/tmp/fuzzing"
              (invoke (CallDestroy container)
                 (invoke (CallProcesses container)
                    (invoke (CallOCIState container)
                       (invoke (CallStats container)
                          (invoke (CallState container) w2)))))).
Proof.
  unfold FuzzStateApi. destruct (length data <? 4)%nat; [discriminate|].
  destruct (newTestRoot (SetLevel PanicLevel w)) as [[root|e] w1] eqn:E1;
    [|discriminate].
  assert (root = "/tmp/fuzzing") as ->.
  { unfold newTestRoot in E1.
    destruct (MkdirAll "/tmp/fuzzing" _) as [[u|e] w']; congruence. }
  rewrite fst_defer, snd_defer.
  destruct (GenerateStruct_Config (NewConsumer data)) as [generated c1].
  destruct (GetInt c1) as [[ns|e] c2] eqn:E3; [|discriminate].
  destruct (GetString c2) as [[containerName|e] c3] eqn:E4; [|discriminate].
  destruct (newContainerWithName _ _ _ w1) as [[container|e] w2] eqn:E2;
    [|discriminate].
  intros _. exists w1, generated, c1, ns, c2, containerName, c3, container, w2.
  repeat split; try reflexivity; assumption.
Qed.

(** A complete run of [FuzzStateApi] makes these calls and no other: the
    root directory is made; the file-system factory is built and, when
    the config asks for the systemd driver, the systemd factory after
    it; the container is created through the factory built last, under
    the extracted name and with the config the selector completed; the
    container that [Create] returned is asked for its state, its
    statistics, its OCI state and its processes, in that order; it is
    destroyed after the four queries; the root directory is removed
    last. *)
Theorem FuzzStateApi_complete_run (data : list byte) (w : World) :
  fst (FuzzStateApi data w) = 1 ->
  exists w1 generated c1 ns c2 containerName c3 f1 container,
    newTestRoot (SetLevel PanicLevel w) = (Ok "/tmp/fuzzing", w1)
    /\ GenerateStruct_Config (NewConsumer data) = (generated, c1)
    /\ GetInt c1 = (Ok ns, c2)
    /\ GetString c2 = (Ok containerName, c3)
    /\ New (fs w1) "/tmp/fuzzing" Cgroupfs = Ok f1
    /\ let cfg := addNamespaces ns {| Rootfs := "/tmp/fuzzing";
                                      Namespaces := Namespaces generated;
                                      Cgroups := Cgroups generated |} in
       let wa := invoke (CallNew "/tmp/fuzzing" Cgroupfs) w1 in
       let wb := invoke (CallNew "/tmp/fuzzing" SystemdCgroups) wa in
       let queries := [CallState container; CallStats container;
                       CallOCIState container; CallProcesses container;
                       CallDestroy container; OsRemoveAll "/tmp/fuzzing"] in
       if wantsSystemd cfg
       then exists f2,
              New (fs wa) "/tmp/fuzzing" SystemdCgroups = Ok f2
              /\ Create (fs wb) f2 containerName cfg = Ok container
              /\ calls (snd (FuzzStateApi data w)) =
                 calls w ++ [OsMkdirAll "/tmp/fuzzing";
                             CallNew "/tmp/fuzzing" Cgroupfs;
                             CallNew "/tmp/fuzzing" SystemdCgroups;
                             CallCreate f2 containerName cfg] ++ queries
       else Create (fs wa) f1 containerName cfg = Ok container
            /\ calls (snd (FuzzStateApi data w)) =
               calls w ++ [OsMkdirAll "/tmp/fuzzing";
                           CallNew "/tmp/fuzzing" Cgroupfs;
                           CallCreate f1 containerName cfg] ++ queries.
Proof.
  intros Hret.
  destruct (FuzzStateApi_complete data w Hret)
    as (w1 & generated & c1 & ns & c2 & containerName & c3 & container & w2
        & E1 & G & E3 & E4 & E2 & ->).
  destruct (newContainerWithName_Ok_exact _ _ _ _ _ _ E2) as (f1 & N1 & Hrest).
  exists w1, generated, c1, ns, c2, containerName, c3, f1, container.
  repeat (split; [assumption|]).
  assert (C1 : calls w1 = calls w ++ [OsMkdirAll "/tmp/fuzzing"]).
  { unfold newTestRoot in E1.
    pose proof (calls_MkdirAll "/tmp/fuzzing" (SetLevel PanicLevel w)) as C.
    destruct (MkdirAll "/tmp/fuzzing" _) as [[u|e] w']; [|discriminate].
    injection E1 as <-. exact C. }
  cbv zeta in *. rewrite calls_RemoveAll. cbn [invoke calls].
  destruct (wantsSystemd _).
  - destruct Hrest as (f2 & N2 & Hc & ->). exists f2.
    split; [exact N2|]. split; [exact Hc|].
    cbn [invoke calls]. rewrite C1, <- !app_assoc. reflexivity.
  - destruct Hrest as (Hc & ->). split; [exact Hc|].
    cbn [invoke calls]. rewrite C1, <- !app_assoc. reflexivity.
Qed.

(** In a complete run the container is created under the name extracted
    after the selector, with the generated config in which [Rootfs] is
    the root directory of the harness, whatever was generated for it,
    and [Namespaces] is the set the selector chooses; the cgroup section
    is the generated one. *)
Theorem FuzzStateApi_created_config (data : list byte) (w : World) :
  fst (FuzzStateApi data w) = 1 ->
  exists f ns c2 containerName c3 cfg,
    GetInt (snd (GenerateStruct_Config (NewConsumer data))) = (Ok ns, c2)
    /\ GetString c2 = (Ok containerName, c3)
    /\ In (CallCreate f containerName cfg) (calls (snd (FuzzStateApi data w)))
    /\ Rootfs cfg = "/tmp/fuzzing"
    /\ Cgroups cfg = Cgroups (fst (GenerateStruct_Config (NewConsumer data)))
    /\ Namespaces cfg =
       (if (Z.rem ns 3 =? 0)%Z
        then [ {| nsType := NEWUTS; Path := EmptyString |} ]
        else if (Z.rem ns 4 =? 0)%Z
        then [ {| nsType := NEWNS; Path := EmptyString |} ]
        else []).
Proof.
  intros Hret.
  destruct (FuzzStateApi_complete data w Hret)
    as (w1 & generated & c1 & ns & c2 & containerName & c3 & container & w2
        & _ & G & E3 & E4 & E2 & ->).
  destruct (newContainerWithName_Ok _ _ _ _ _ _ E2)
    as (pre & f & m & C2 & _).
  exists f, ns, c2, containerName, c3.
  exists (addNamespaces ns {| Rootfs := "/tmp/fuzzing";
                              Namespaces := Namespaces generated;
                              Cgroups := Cgroups generated |}).
  rewrite G. cbn [fst snd]. split; [exact E3|]. split; [exact E4|].
  split.
  { rewrite calls_RemoveAll. cbn [invoke calls]. rewrite C2.
    rewrite !in_app_iff. cbn [In]. tauto. }
  unfold addNamespaces.
  destruct (Z.rem ns 3 =? 0)%Z; [|destruct (Z.rem ns 4 =? 0)%Z];
    cbn; tauto.
Qed.

(** [FuzzStateApi] returns with the logger at the panic level on every
    path, the rejection of a short buffer included: the level is set
    before anything else and nothing the harness does changes it. *)
Theorem FuzzStateApi_logger_level (data : list byte) (w : World) :
  loglevel (snd (FuzzStateApi data w)) = PanicLevel.
Proof.
  unfold FuzzStateApi. destruct (length data <? 4)%nat; [reflexivity|].
  unfold newTestRoot.
  pose proof (loglevel_MkdirAll "/tmp/fuzzing" (SetLevel PanicLevel w)) as L1.
  destruct (MkdirAll "/tmp/fuzzing" _) as [[u|e] w1];
    cbn [snd SetLevel loglevel] in L1; [|exact L1].
  rewrite snd_defer, loglevel_RemoveAll.
  destruct (GenerateStruct_Config (NewConsumer data)) as [generated c1].
  destruct (GetInt c1) as [[ns|e] c2]; [|exact L1].
  destruct (GetString c2) as [[containerName|e] c3]; [|exact L1].
  match goal with
  | |- context [newContainerWithName ?n ?r ?c w1] =>
      pose proof (loglevel_newContainerWithName n r c w1) as L2;
      destruct (newContainerWithName n r c w1) as [[container|e] w2]
  end; cbn [snd] in L2; [|cbn; congruence].
  rewrite snd_defer. cbn. congruence.
Qed.

End LifecycleHarness.

Section FactoryHarness.
Context `{Runtime} `{Consumer}.

Lemma Open_Ok (name : string) (w w' : World) (f : OsFile) :
  Open name w = (Ok f, w') -> f = mkOsFile name.
Proof.
  unfold Open. cbn [fs record]. destruct (fs w !! name); [|discriminate].
  destruct (refuses SysOpen name); congruence.
Qed.

(** [Open] fails with an error other than "does not exist" only when
    the file is there and the host refuses to open it. *)
Lemma Open_Err_exists (name : string) (w w' : World) (e : error) :
  Open name w = (Err e, w') -> IsNotExist e = false ->
  refuses SysOpen name = true /\ fs w !! name <> None.
Proof.
  unfold Open. cbn [fs record]. destruct (fs w !! name).
  - destruct (refuses SysOpen name); [|discriminate]. intros _ _.
    split; [reflexivity|discriminate].
  - intros [= <- _]. discriminate.
Qed.

(** What a run of [FuzzFactory] that returns [1] ends with. *)
Lemma FuzzFactory_complete (data : list byte) (w : World) :
  fst (FuzzFactory data w) = 1 ->
  exists w3 p f wo,
    (Open p (record (CallSecureJoin "/tmp/fuzz-root/fuzz" "state.json") w3)
       = (Ok (mkOsFile p), wo) /\ f = Some (mkOsFile p)
     \/ (exists e, Open p (record (CallSecureJoin "/tmp/fuzz-root/fuzz"
                                     "state.json") w3) = (Err e, wo))
        /\ f = None /\ refuses SysOpen p = true)
    /\ snd (FuzzFactory data w) =
       snd (RemoveAll "/tmp/fuzz-root/fuzz/state.json"
              (snd (Close f
                      (invoke (CallLoad {| Root := "/tmp/fuzz-root";
                                           InitPath := "/proc/self/exe";
                                           InitArgs := [os_Args0; "init"];
                                           Validator := validate_New;
                                           CriuPath := "criu" |} "fuzz")
                              wo)))).
Proof.
  unfold FuzzFactory. destruct (length data <? 20)%nat; [discriminate|].
  destruct (MkdirAll "/tmp/fuzz-root" w) as [[u1|?] w1]; [|discriminate].
  destruct (MkdirAll "/tmp/fuzz-root/fuzz" w1) as [[u2|?] w2]; [|discriminate].
  destruct (GetString (NewConsumer data)) as [[ociVersion|?] c1]; [|discriminate].
  destruct (GetString c1) as [[id|?] c2]; [|discriminate].
  destruct (GetString c2) as [[status|?] c3]; [|discriminate].
  destruct (GetInt c3) as [[pid|?] c4]; [|discriminate].
  destruct (GetString c4) as [[bundle|?] c5]; [|discriminate].
  destruct (_ || _ || _); [discriminate|].
  destruct (json_Marshal _) as [b|?]; [|discriminate].
  destruct (createFiles _ b _) as [[?|?] w3]; [|discriminate].
  rewrite fst_defer, snd_defer.
  destruct (SecureJoin _ _ _) as [p|?]; [|discriminate].
  destruct (Open p _) as [[f|e] wo] eqn:Eo.
  - rewrite fst_defer, snd_defer. intros _.
    pose proof (Open_Ok _ _ _ _ Eo) as ->.
    exists w3, p, (Some (mkOsFile p)), wo.
    split; [left; split; [exact Eo|reflexivity]|reflexivity].
  - destruct (IsNotExist e) eqn:En; [discriminate|].
    rewrite fst_defer, snd_defer. intros _.
    exists w3, p, None, wo. split; [|reflexivity].
    right. split; [exists e; exact Eo|].
    split; [reflexivity|]. exact (proj1 (Open_Err_exists _ _ _ _ Eo En)).
Qed.

(** Every step of a run of [FuzzFactory] that returns [1]. *)
Lemma FuzzFactory_complete_chain (data : list byte) (w : World) :
  fst (FuzzFactory data w) = 1 ->
  exists u1 w1 u2 w2 ociVersion c1 id c2 status c3 pid c4 bundle c5 b u3 w3 p,
    MkdirAll "/tmp/fuzz-root" w = (Ok u1, w1)
    /\ MkdirAll "/tmp/fuzz-root/fuzz" w1 = (Ok u2, w2)
    /\ GetString (NewConsumer data) = (Ok ociVersion, c1)
    /\ GetString c1 = (Ok id, c2)
    /\ GetString c2 = (Ok status, c3)
    /\ GetInt c3 = (Ok pid, c4)
    /\ GetString c4 = (Ok bundle, c5)
    /\ (len ociVersion <? 5)%Z || (len id <? 5)%Z || (len bundle <? 5)%Z = false
    /\ let fstate := {| OciVersion := ociVersion; Id := id; Status := status;
                        Pid := pid; Bundle := bundle;
                        Annotations := ["fuzz"] |} in
       json_Marshal fstate = Ok b
       /\ createFiles ["/tmp/fuzz-root/fuzz/state.json"] b
            (record (CallMarshal fstate) w2) = (Ok u3, w3)
       /\ SecureJoin (fs w3) "/tmp/fuzz-root/fuzz" "state.json" = Ok p
       /\ let o := Open p (record (CallSecureJoin "/tmp/fuzz-root/fuzz"
                                     "state.json") w3) in
          match fst o with
          | Ok f => f = mkOsFile p
          | Err e => IsNotExist e = false /\ refuses SysOpen p = true
          end
          /\ snd (FuzzFactory data w) =
             snd (RemoveAll "/tmp/fuzz-root/fuzz/state.json"
                    (snd (Close (match fst o with
                                 | Ok f => Some f
                                 | Err _ => None
                                 end)
                            (invoke (CallLoad {| Root := "/tmp/fuzz-root";
                                                 InitPath := "/proc/self/exe";
                                                 InitArgs := [os_Args0; "init"];
                                                 Validator := validate_New;
                                                 CriuPath := "criu" |} "fuzz")
                                    (snd o))))).
Proof.
  unfold FuzzFactory. destruct (length data <? 20)%nat; [discriminate|].
  destruct (MkdirAll "/tmp/fuzz-root" w) as [[u1|?] w1] eqn:E1;
    [|discriminate].
  destruct (MkdirAll "/tmp/fuzz-root/fuzz" w1) as [[u2|?] w2] eqn:E2;
    [|discriminate].
  destruct (GetString (NewConsumer data)) as [[ociVersion|?] c1] eqn:G1;
    [|discriminate].
  destruct (GetString c1) as [[id|?] c2] eqn:G2; [|discriminate].
  destruct (GetString c2) as [[status|?] c3] eqn:G3; [|discriminate].
  destruct (GetInt c3) as [[pid|?] c4] eqn:G4; [|discriminate].
  destruct (GetString c4) as [[bundle|?] c5] eqn:G5; [|discriminate].
  destruct (_ || _ || _) eqn:Hfilter; [discriminate|].
  destruct (json_Marshal _) as [b|?] eqn:Ej; [|discriminate].
  destruct (createFiles _ b _) as [[u3|?] w3] eqn:Ec; [|discriminate].
  rewrite fst_defer, snd_defer.
  destruct (SecureJoin _ _ _) as [p|?] eqn:Es; [|discriminate].
  intros Hret.
  exists u1, w1, u2, w2, ociVersion, c1, id, c2, status, c3, pid, c4, bundle,
    c5, b, u3, w3, p.
  repeat (split; [first [reflexivity | assumption]|]). cbv zeta.
  repeat (split; [first [reflexivity | assumption]|]).
  destruct (Open p _) as [[f|e] wo] eqn:Eo; cbn [fst snd].
  - rewrite snd_defer. split; [exact (Open_Ok _ _ _ _ Eo)|reflexivity].
  - destruct (IsNotExist e) eqn:En; [discriminate|].
    rewrite snd_defer. split; [|reflexivity].
    split; [reflexivity|exact (proj1 (Open_Err_exists _ _ _ _ Eo En))].
Qed.

(** A complete run of [FuzzFactory] ends like this.  After the record
    made of the extracted fields is written by [createFiles], its name
    is joined to the work directory on the file system [createFiles]
    left; the path [p] the join returns is the one opened; [Load] is
    called on the factory rooted at [/tmp/fuzz-root] for the identifier
    ["fuzz"]; the file is closed after [Load] and the state record is
    removed last.  The file closed is the one [Open] returned, and the
    nil file exactly when [Open] failed: the failure is then not "does
    not exist", which is the case only when the host refuses to open a
    file that is there. *)
Theorem FuzzFactory_complete_run (data : list byte) (w : World) :
  fst (FuzzFactory data w) = 1 ->
  exists ociVersion c1 id c2 status c3 pid c4 bundle c5 b p,
    GetString (NewConsumer data) = (Ok ociVersion, c1)
    /\ GetString c1 = (Ok id, c2)
    /\ GetString c2 = (Ok status, c3)
    /\ GetInt c3 = (Ok pid, c4)
    /\ GetString c4 = (Ok bundle, c5)
    /\ let fstate := {| OciVersion := ociVersion; Id := id; Status := status;
                        Pid := pid; Bundle := bundle;
                        Annotations := ["fuzz"] |} in
       let w2 := snd (MkdirAll "/tmp/fuzz-root/fuzz"
                        (snd (MkdirAll "/tmp/fuzz-root" w))) in
       let w3 := snd (createFiles ["/tmp/fuzz-root/fuzz/state.json"] b
                        (record (CallMarshal fstate) w2)) in
       let o := Open p (record (CallSecureJoin "/tmp/fuzz-root/fuzz"
                                  "state.json") w3) in
       let f := match fst o with Ok f' => Some f' | Err _ => None end in
       json_Marshal fstate = Ok b
       /\ SecureJoin (fs w3) "/tmp/fuzz-root/fuzz" "state.json" = Ok p
       /\ match fst o with
          | Ok f' => f' = mkOsFile p
          | Err e => IsNotExist e = false /\ refuses SysOpen p = true
          end
       /\ calls (snd (FuzzFactory data w)) =
          calls w3 ++ [CallSecureJoin "/tmp/fuzz-root/fuzz" "state.json";
                       OsOpen p;
                       CallLoad {| Root := "/tmp/fuzz-root";
                                   InitPath := "/proc/self/exe";
                                   InitArgs := [os_Args0; "init"];
                                   Validator := validate_New;
                                   CriuPath := "criu" |} "fuzz";
                       OsClose f;
                       OsRemoveAll "/tmp/fuzz-root/fuzz/state.json"].
Proof.
  intros Hret.
  destruct (FuzzFactory_complete_chain data w Hret)
    as (u1 & w1 & u2 & w2 & ociVersion & c1 & id & c2 & status & c3 & pid
        & c4 & bundle & c5 & b & u3 & w3 & p
        & E1 & E2 & G1 & G2 & G3 & G4 & G5 & _ & Hrest).
  cbv zeta in Hrest. destruct Hrest as (Ej & Ec & Es & Ho & ->).
  exists ociVersion, c1, id, c2, status, c3, pid, c4, bundle, c5, b, p.
  cbv zeta. rewrite E1. cbn [snd]. rewrite E2. cbn [snd]. rewrite Ec.
  cbn [snd]. repeat (split; [assumption|]).
  rewrite calls_RemoveAll, calls_Close. cbn [invoke calls].
  rewrite calls_Open. cbn [record calls]. rewrite <- !app_assoc. reflexivity.
Qed.

(** A complete run of [FuzzFactory] leaves no state record: on a host
    that lets the file be removed, nothing is at its path when the
    harness returns [1], whatever [Load] did to it. *)
Theorem FuzzFactory_state_record_removed (data : list byte) (w : World) :
  fst (FuzzFactory data w) = 1 ->
  refuses SysRemoveAll "/tmp/fuzz-root/fuzz/state.json" = false ->
  fs (snd (FuzzFactory data w)) !! "/tmp/fuzz-root/fuzz/state.json" = None.
Proof.
  intros Hret Hrm.
  destruct (FuzzFactory_complete data w Hret) as (w3 & p & f & wo & _ & ->).
  apply RemoveAll_self. exact Hrm.
Qed.

End FactoryHarness.

Section DeviceHarness.
Context `{Consumer} `{Devices.Emulation}.

(** The device-rule [Fuzz] calls [Transition] exactly when it returns
    [1].  In that case the two strings were extracted one after the
    other from the same consumer, both parsed, and the only calls are
    the two parses in that order and then the transition from the first
    emulator to the second; otherwise no transition is computed. *)
Theorem Fuzz_transition_only_when_complete (data : list byte) :
  if (fst (Devices.Fuzz data) =? 1)%Z
  then exists str1 c1 str2 c2 emu1 emu2,
         GetString (NewConsumer data) = (Ok str1, c1)
         /\ GetString c1 = (Ok str2, c2)
         /\ Devices.EmulatorFromList str1 = Ok emu1
         /\ Devices.EmulatorFromList str2 = Ok emu2
         /\ snd (Devices.Fuzz data) =
            [Devices.CallEmulatorFromList str1;
             Devices.CallEmulatorFromList str2;
             Devices.CallTransition emu1 emu2]
  else Forall (fun c => exists text, c = Devices.CallEmulatorFromList text)
              (snd (Devices.Fuzz data)).
Proof.
  unfold Devices.Fuzz.
  destruct (GetString (NewConsumer data)) as [[str1|e] c1]; [|constructor].
  destruct (Devices.EmulatorFromList str1) as [emu1|e] eqn:P1.
  2:{ cbn. repeat constructor. eexists. reflexivity. }
  destruct (GetString c1) as [[str2|e] c2] eqn:G2.
  2:{ cbn. repeat constructor. eexists. reflexivity. }
  destruct (Devices.EmulatorFromList str2) as [emu2|e] eqn:P2.
  2:{ cbn. repeat constructor; eexists; reflexivity. }
  cbn. exists str1, c1, str2, c2, emu1, emu2.
  repeat split; try reflexivity; assumption.
Qed.

End DeviceHarness.

(** ** Runs of the further properties *)

(** [createFiles] on a list that names [a.txt] twice: both files start
    with the bytes written. *)
Lemma createFiles_writes_every_file_witness :
  let W := Reference.emptyWorld Reference.noFaults in
  let files := ["a.txt"; "b.txt"; "a.txt"] in
  exists tail,
    fs (snd (@createFiles (Reference.refRuntime Reference.noFaults)
               files [x68; x69] W)) !! "a.txt"
    = Some (RegularFile ([x68; x69] ++ tail)).
Proof.
  intros W files.
  apply (@createFiles_writes_every_file
           (Reference.refRuntime Reference.noFaults) files [x68; x69] W
           (snd (createFiles files [x68; x69] W)) tt "a.txt").
  - vm_compute. reflexivity.
  - left. reflexivity.
Defined.

(** [createFiles] on two files: both are opened and written before
    either is closed, and [b.txt] is closed first. *)
Lemma createFiles_closes_in_reverse_witness :
  let W := Reference.emptyWorld Reference.noFaults in
  calls (snd (@createFiles (Reference.refRuntime Reference.noFaults)
                ["a.txt"; "b.txt"] [x68; x69] W))
  = [OsOpenFile "a.txt"; OsWrite "a.txt" [x68; x69];
     OsOpenFile "b.txt"; OsWrite "b.txt" [x68; x69];
     OsClose (Some (mkOsFile "b.txt")); OsClose (Some (mkOsFile "a.txt"))].
Proof.
  intros W.
  apply (@createFiles_closes_in_reverse
           (Reference.refRuntime Reference.noFaults)
           ["a.txt"; "b.txt"] [x68; x69] W
           (snd (createFiles ["a.txt"; "b.txt"] [x68; x69] W)) tt).
  vm_compute. reflexivity.
Defined.

(** [newTestRoot] on an empty file system. *)
Lemma newTestRoot_directory_idempotent_witness :
  let W := Reference.emptyWorld Reference.noFaults in
  let W1 := snd (@newTestRoot (Reference.refRuntime Reference.noFaults) W) in
  "/tmp/fuzzing" = "/tmp/fuzzing"
  /\ fs W1 !! "/tmp/fuzzing" = Some Directory
  /\ fs W1 !! "/tmp" = Some Directory
  /\ calls W1 = calls W ++ [OsMkdirAll "/tmp/fuzzing"]
  /\ fst (newTestRoot W1) = Ok "/tmp/fuzzing"
  /\ fs (snd (newTestRoot W1)) = fs W1.
Proof.
  intros W W1.
  apply (@newTestRoot_directory_idempotent
           (Reference.refRuntime Reference.noFaults) W W1 "/tmp/fuzzing").
  vm_compute. reflexivity.
Defined.

(** [newContainerWithName] on a host without systemd, for a config that
    asks for the systemd driver: the error of the second [New] comes
    back and no container is created. *)
Lemma newContainerWithName_factory_error_witness :
  let cfg := {| Rootfs := "/tmp/fuzzing"; Namespaces := [];
                Cgroups := Some {| Parent := "system.slice" |} |} in
  let W := @mkWorld Reference.noSystemdRuntime ∅ InfoLevel [] in
  fst (@newContainerWithName Reference.noSystemdRuntime "A" "/tmp/fuzzing" cfg W)
  = Err (ErrOther "systemd not running on this host")
  /\ calls (snd (@newContainerWithName Reference.noSystemdRuntime
                   "A" "/tmp/fuzzing" cfg W))
     = [CallNew "/tmp/fuzzing" Cgroupfs; CallNew "/tmp/fuzzing" SystemdCgroups].
Proof.
  intros cfg W.
  apply (@newContainerWithName_factory_error Reference.noSystemdRuntime
           "A" "/tmp/fuzzing" cfg W).
  right. repeat split; reflexivity.
Defined.

(** A complete run of [FuzzStateApi] on [systemdInput], whose config
    asks for the systemd driver. *)
Lemma FuzzStateApi_complete_run_witness :
  let R := Reference.refRuntime Reference.noFaults in
  let W := Reference.emptyWorld Reference.noFaults in
  let data := Reference.systemdInput in
  let run := @FuzzStateApi _ _ (Reference.refStructGen Reference.noFaults)
               data W in
  exists w1 generated c1 ns c2 containerName c3 f1 container,
    @newTestRoot R (SetLevel PanicLevel W) = (Ok "/tmp/fuzzing", w1)
    /\ Reference.populateConfig (@NewConsumer Reference.byteStreamConsumer data)
       = (generated, c1)
    /\ @GetInt Reference.byteStreamConsumer c1 = (Ok ns, c2)
    /\ @GetString Reference.byteStreamConsumer c2 = (Ok containerName, c3)
    /\ @New R (fs w1) "/tmp/fuzzing" Cgroupfs = Ok f1
    /\ let cfg := addNamespaces ns {| Rootfs := "/tmp/fuzzing";
                                      Namespaces := Namespaces generated;
                                      Cgroups := Cgroups generated |} in
       let wa := invoke (CallNew "/tmp/fuzzing" Cgroupfs) w1 in
       let wb := invoke (CallNew "/tmp/fuzzing" SystemdCgroups) wa in
       let queries := [CallState container; CallStats container;
                       CallOCIState container; CallProcesses container;
                       CallDestroy container; OsRemoveAll "/tmp/fuzzing"] in
       if wantsSystemd cfg
       then exists f2,
              @New R (fs wa) "/tmp/fuzzing" SystemdCgroups = Ok f2
              /\ @Create R (fs wb) f2 containerName cfg = Ok container
              /\ calls (snd run) =
                 calls W ++ [OsMkdirAll "/tmp/fuzzing";
                             CallNew "/tmp/fuzzing" Cgroupfs;
                             CallNew "/tmp/fuzzing" SystemdCgroups;
                             CallCreate f2 containerName cfg] ++ queries
       else @Create R (fs wa) f1 containerName cfg = Ok container
            /\ calls (snd run) =
               calls W ++ [OsMkdirAll "/tmp/fuzzing";
                           CallNew "/tmp/fuzzing" Cgroupfs;
                           CallCreate f1 containerName cfg] ++ queries.
Proof.
  apply (@FuzzStateApi_complete_run _ _
           (Reference.refStructGen Reference.noFaults)).
  vm_compute. reflexivity.
Defined.

(** The config of a complete run of [FuzzStateApi] on [lifecycleInput]. *)
Lemma FuzzStateApi_created_config_witness :
  let data := Reference.lifecycleInput in
  let run := @FuzzStateApi _ _ (Reference.refStructGen Reference.noFaults)
               data (Reference.emptyWorld Reference.noFaults) in
  exists f ns c2 containerName c3 cfg,
    @GetInt Reference.byteStreamConsumer
      (snd (Reference.populateConfig
              (@NewConsumer Reference.byteStreamConsumer data))) = (Ok ns, c2)
    /\ @GetString Reference.byteStreamConsumer c2 = (Ok containerName, c3)
    /\ In (CallCreate f containerName cfg) (calls (snd run))
    /\ Rootfs cfg = "/tmp/fuzzing"
    /\ Cgroups cfg = Cgroups (fst (Reference.populateConfig
                (@NewConsumer Reference.byteStreamConsumer data)))
    /\ Namespaces cfg =
       (if (Z.rem ns 3 =? 0)%Z
        then [ {| nsType := NEWUTS; Path := EmptyString |} ]
        else if (Z.rem ns 4 =? 0)%Z
        then [ {| nsType := NEWNS; Path := EmptyString |} ]
        else []).
Proof.
  apply (@FuzzStateApi_created_config _ _
           (Reference.refStructGen Reference.noFaults)).
  vm_compute. reflexivity.
Defined.

(** A complete run of [FuzzFactory] on [factoryInput]. *)
Lemma FuzzFactory_complete_run_witness :
  let R := Reference.refRuntime Reference.noFaults in
  let C := Reference.byteStreamConsumer in
  let W := Reference.emptyWorld Reference.noFaults in
  let data := Reference.factoryInput in
  exists ociVersion c1 id c2 status c3 pid c4 bundle c5 b p,
    @GetString C (@NewConsumer C data) = (Ok ociVersion, c1)
    /\ @GetString C c1 = (Ok id, c2)
    /\ @GetString C c2 = (Ok status, c3)
    /\ @GetInt C c3 = (Ok pid, c4)
    /\ @GetString C c4 = (Ok bundle, c5)
    /\ let fstate := {| OciVersion := ociVersion; Id := id; Status := status;
                        Pid := pid; Bundle := bundle;
                        Annotations := ["fuzz"] |} in
       let w2 := snd (@MkdirAll R "/tmp/fuzz-root/fuzz"
                        (snd (@MkdirAll R "/tmp/fuzz-root" W))) in
       let w3 := snd (@createFiles R ["/tmp/fuzz-root/fuzz/state.json"] b
                        (record (CallMarshal fstate) w2)) in
       let o := @Open R p (record (CallSecureJoin "/tmp/fuzz-root/fuzz"
                                     "state.json") w3) in
       let f := match fst o with Ok f' => Some f' | Err _ => None end in
       @json_Marshal R fstate = Ok b
       /\ @SecureJoin R (fs w3) "/tmp/fuzz-root/fuzz" "state.json" = Ok p
       /\ match fst o with
          | Ok f' => f' = mkOsFile p
          | Err e => IsNotExist e = false /\ @refuses R SysOpen p = true
          end
       /\ calls (snd (@FuzzFactory R C data W)) =
          calls w3 ++ [CallSecureJoin "/tmp/fuzz-root/fuzz" "state.json";
                       OsOpen p;
                       CallLoad {| Root := "/tmp/fuzz-root";
                                   InitPath := "/proc/self/exe";
                                   InitArgs := [@os_Args0 R; "init"];
                                   Validator := validate_New;
                                   CriuPath := "criu" |} "fuzz";
                       OsClose f;
                       OsRemoveAll "/tmp/fuzz-root/fuzz/state.json"].
Proof.
  apply (@FuzzFactory_complete_run (Reference.refRuntime Reference.noFaults)
           Reference.byteStreamConsumer).
  vm_compute. reflexivity.
Defined.

(** The state record after a complete run of [FuzzFactory] on
    [factoryInput]. *)
Lemma FuzzFactory_state_record_removed_witness :
  fs (snd (@FuzzFactory (Reference.refRuntime Reference.noFaults)
             Reference.byteStreamConsumer Reference.factoryInput
             (Reference.emptyWorld Reference.noFaults)))
    !! "/tmp/fuzz-root/fuzz/state.json" = None.
Proof.
  apply (@FuzzFactory_state_record_removed
           (Reference.refRuntime Reference.noFaults)
           Reference.byteStreamConsumer).
  - vm_compute. reflexivity.
  - reflexivity.
Defined.

(** ** Runs that are abandoned *)

Section AbandonedRuns.
Context `{StructGen}.

(** The calls of [newContainerWithName], on every path: factories are
    built and at most a container is created. *)
Lemma newContainerWithName_calls (name root : string) (cfg : Config) (w : World) :
  exists l,
    calls (snd (newContainerWithName name root cfg w)) = calls w ++ l
    /\ Forall (fun c => match c with
                        | CallNew _ _ | CallCreate _ _ _ => True
                        | _ => False
                        end) l.
Proof.
  unfold newContainerWithName.
  destruct (New (fs w) root Cgroupfs) as [f1|e1].
  2:{ eexists. split; [reflexivity|]. repeat constructor. }
  destruct (wantsSystemd cfg).
  2:{ eexists. split; [cbn; rewrite <- app_assoc; reflexivity|].
      repeat constructor. }
  destruct (New _ root SystemdCgroups) as [f2|e2].
  - eexists. split; [cbn; rewrite <- !app_assoc; reflexivity|].
    repeat constructor.
  - eexists. split; [cbn; rewrite <- !app_assoc; reflexivity|].
    repeat constructor.
Qed.

(** The calls of [createFiles], on every path: files are opened, written
    and closed, and nothing else is done. *)
Lemma createFiles_calls (files : list string) (b : list byte) :
  forall w, exists l,
    calls (snd (createFiles files b w)) = calls w ++ l
    /\ Forall (fun c => match c with
                        | OsOpenFile _ | OsWrite _ _ | OsClose _ => True
                        | _ => False
                        end) l.
Proof.
  induction files as [|file rest IH]; intros w.
  { exists []. cbn. rewrite app_nil_r. split; [reflexivity|constructor]. }
  cbn [createFiles].
  pose proof (calls_OpenFile file w) as Co.
  destruct (OpenFile file w) as [[f|e] w1]; cbn [snd] in Co.
  2:{ eexists. split; [exact Co|]. repeat constructor. }
  rewrite snd_defer, calls_Close.
  pose proof (calls_Write f b w1) as Cw.
  destruct (Write f b w1) as [[n|e] w2]; cbn [snd] in Cw.
  - destruct (IH w2) as (l & Cl & Fl). rewrite Cl, Cw, Co.
    eexists. split; [rewrite <- !app_assoc; reflexivity|].
    cbn. repeat constructor. apply Forall_app. split; [exact Fl|].
    repeat constructor.
  - cbn [snd]. rewrite Cw, Co.
    eexists. split; [rewrite <- !app_assoc; reflexivity|].
    repeat constructor.
Qed.

(** A run of [FuzzStateApi] that does not return [1] asks the container
    nothing and destroys nothing: all it calls is [MkdirAll] and
    [RemoveAll] on its root and, when it got as far as creating the
    container, [New] and [Create]. *)
Theorem FuzzStateApi_abandoned_run (data : list byte) (w : World) :
  fst (FuzzStateApi data w) <> 1 ->
  exists l,
    calls (snd (FuzzStateApi data w)) = calls w ++ l
    /\ Forall (fun c => match c with
                        | OsMkdirAll _ | OsRemoveAll _
                        | CallNew _ _ | CallCreate _ _ _ => True
                        | _ => False
                        end) l.
Proof.
  unfold FuzzStateApi. destruct (length data <? 4)%nat.
  { intros _. exists []. cbn. rewrite app_nil_r.
    split; [reflexivity|constructor]. }
  unfold newTestRoot.
  pose proof (calls_MkdirAll "/tmp/fuzzing" (SetLevel PanicLevel w)) as C1.
  destruct (MkdirAll "/tmp/fuzzing" _) as [[u|e] w1];
    cbn [snd SetLevel calls] in C1.
  2:{ intros _. eexists. split; [exact C1|]. repeat constructor. }
  rewrite fst_defer, snd_defer, calls_RemoveAll.
  destruct (GenerateStruct_Config (NewConsumer data)) as [generated c1].
  destruct (GetInt c1) as [[ns|e] c2].
  2:{ intros _. cbn [snd]. rewrite C1. eexists.
      split; [rewrite <- app_assoc; reflexivity|]. repeat constructor. }
  destruct (GetString c2) as [[containerName|e] c3].
  2:{ intros _. cbn [snd]. rewrite C1. eexists.
      split; [rewrite <- app_assoc; reflexivity|]. repeat constructor. }
  match goal with
  | |- context [newContainerWithName ?n ?r ?c w1] =>
      destruct (newContainerWithName_calls n r c w1) as (l & Cl & Fl);
      destruct (newContainerWithName n r c w1) as [[container|e] w2]
  end; cbn [snd] in Cl.
  { rewrite fst_defer. cbn. congruence. }
  intros _. cbn [snd]. rewrite Cl, C1. eexists.
  split; [rewrite <- !app_assoc; reflexivity|].
  cbn. constructor; [exact I|]. apply Forall_app. split.
  - eapply List.Forall_impl; [|exact Fl]. intros c. destruct c; tauto.
  - repeat constructor.
Qed.

(** A run of [FuzzFactory] that does not return [1] has not called
    [Load]. *)
Theorem FuzzFactory_load_only_when_complete (data : list byte) (w : World) :
  fst (FuzzFactory data w) <> 1 ->
  exists l,
    calls (snd (FuzzFactory data w)) = calls w ++ l
    /\ Forall (fun c => match c with
                        | CallLoad _ _ => False
                        | _ => True
                        end) l.
Proof.
  unfold FuzzFactory. destruct (length data <? 20)%nat.
  { intros _. exists []. cbn. rewrite app_nil_r.
    split; [reflexivity|constructor]. }
  pose proof (calls_MkdirAll "/tmp/fuzz-root" w) as C1.
  destruct (MkdirAll "/tmp/fuzz-root" w) as [[u1|?] w1]; cbn [snd] in C1.
  2:{ intros _. eexists. split; [exact C1|]. repeat constructor. }
  pose proof (calls_MkdirAll "/tmp/fuzz-root/fuzz" w1) as C2.
  destruct (MkdirAll "/tmp/fuzz-root/fuzz" w1) as [[u2|?] w2]; cbn [snd] in C2.
  2:{ intros _. cbn [snd]. rewrite C2, C1. eexists.
      split; [rewrite <- app_assoc; reflexivity|]. repeat constructor. }
  assert (Hdirs : exists l, calls w2 = calls w ++ l
            /\ Forall (fun c : Call initConfig Factory Container =>
                         match c with CallLoad _ _ => False | _ => True end) l).
  { rewrite C2, C1. eexists.
    split; [rewrite <- app_assoc; reflexivity|]. repeat constructor. }
  destruct (GetString (NewConsumer data)) as [[ociVersion|?] c1];
    [|intros _; exact Hdirs].
  destruct (GetString c1) as [[id|?] c2]; [|intros _; exact Hdirs].
  destruct (GetString c2) as [[status|?] c3]; [|intros _; exact Hdirs].
  destruct (GetInt c3) as [[pid|?] c4]; [|intros _; exact Hdirs].
  destruct (GetString c4) as [[bundle|?] c5]; [|intros _; exact Hdirs].
  destruct (_ || _ || _); [intros _; exact Hdirs|].
  destruct Hdirs as (l2 & Cl2 & Fl2).
  destruct (json_Marshal _) as [b|?].
  2:{ intros _. cbn [snd record calls]. rewrite Cl2. eexists.
      split; [rewrite <- app_assoc; reflexivity|].
      apply Forall_app. split; [exact Fl2|repeat constructor]. }
  match goal with
  | |- context [createFiles ?fl b ?w0] =>
      destruct (createFiles_calls fl b w0) as (l3 & Cl3 & Fl3);
      destruct (createFiles fl b w0) as [[?|?] w3]
  end; cbn [snd record calls] in Cl3.
  2:{ intros _. cbn [snd]. rewrite Cl3, Cl2. eexists.
      split; [rewrite <- !app_assoc; reflexivity|].
      apply Forall_app. split; [exact Fl2|]. constructor; [exact I|].
      eapply List.Forall_impl; [|exact Fl3]. intros c. destruct c; tauto. }
  rewrite fst_defer, snd_defer, calls_RemoveAll.
  destruct (SecureJoin _ _ _) as [p|?].
  2:{ intros _. cbn [snd record calls]. rewrite Cl3, Cl2. eexists.
      split; [rewrite <- !app_assoc; reflexivity|].
      apply Forall_app. split; [exact Fl2|]. constructor; [exact I|].
      apply Forall_app. split; [|repeat constructor].
      eapply List.Forall_impl; [|exact Fl3]. intros c. destruct c; tauto. }
  match goal with
  | |- context [Open p ?w0] =>
      pose proof (calls_Open p w0) as Co;
      destruct (Open p w0) as [[f|e] wo]
  end; cbn [snd record calls] in Co.
  { rewrite fst_defer. cbn. congruence. }
  destruct (IsNotExist e).
  2:{ rewrite fst_defer. cbn. congruence. }
  intros _. cbn [snd]. rewrite Co, Cl3, Cl2. eexists.
  split; [rewrite <- !app_assoc; reflexivity|].
  apply Forall_app. split; [exact Fl2|]. constructor; [exact I|].
  apply Forall_app. split; [|repeat constructor].
  eapply List.Forall_impl; [|exact Fl3]. intros c. destruct c; tauto.
Qed.

End AbandonedRuns.

(** [FuzzStateApi] on [emptyNameInput]: [Create] turns the empty name
    down and the run is abandoned. *)
Lemma FuzzStateApi_abandoned_run_witness :
  let run := @FuzzStateApi _ _ (Reference.refStructGen Reference.noFaults)
               Reference.emptyNameInput
               (Reference.emptyWorld Reference.noFaults) in
  exists l,
    calls (snd run) = [] ++ l
    /\ Forall (fun c => match c with
                        | OsMkdirAll _ | OsRemoveAll _
                        | CallNew _ _ | CallCreate _ _ _ => True
                        | _ => False
                        end) l.
Proof.
  apply (@FuzzStateApi_abandoned_run _ _
           (Reference.refStructGen Reference.noFaults)).
  vm_compute. discriminate.
Defined.

(** [FuzzFactory] on [shortIdInput]: the run is abandoned at the length
    filter. *)
Lemma FuzzFactory_load_only_when_complete_witness :
  let run := @FuzzFactory (Reference.refRuntime Reference.noFaults)
               Reference.byteStreamConsumer Reference.shortIdInput
               (Reference.emptyWorld Reference.noFaults) in
  exists l,
    calls (snd run) = [] ++ l
    /\ Forall (fun c => match c with
                        | CallLoad _ _ => False
                        | _ => True
                        end) l.
Proof.
  apply (@FuzzFactory_load_only_when_complete
           (Reference.refRuntime Reference.noFaults)
           Reference.byteStreamConsumer).
  vm_compute. discriminate.
Defined.

(** ** The state record between [createFiles] and [Open] *)

Section StateRecord.
Context `{Runtime} `{Consumer}.

(** What [createFiles] on the one state record leaves, when it
    succeeds. *)
Lemma createFiles_single_Ok (path : string) (b : list byte) (w w' : World)
    (u : unit) :
  createFiles [path] b w = (Ok u, w') ->
  (exists content, fs w' !! path = Some (RegularFile content))
  /\ calls w' = calls w ++ [OsOpenFile path; OsWrite path b;
                            OsClose (Some (mkOsFile path))].
Proof.
  intros Hrun.
  destruct (createFiles_Ok_cons _ _ _ _ _ _ Hrun)
    as (w1 & w2 & w3 & n & u' & E1 & E2 & E3 & ->).
  cbn in E3. assert (w3 = w2) as -> by congruence.
  destruct (Write_Ok _ _ _ _ _ E2) as (old & _ & Hw & Cw).
  destruct (OpenFile_Ok _ _ _ _ E1) as (_ & _ & Co & _).
  split.
  - rewrite fs_Close. eexists. exact Hw.
  - rewrite calls_Close, Cw, Co, <- !app_assoc. reflexivity.
Qed.

(** Once its directories are made, [FuzzFactory] does not return [-1]
    when the safe join gives the path the record was written to: the
    file that [createFiles] has just written is there for [Open], so the
    test for a missing file never fires.  The harness then returns [0]
    or [1]. *)
Theorem FuzzFactory_written_record_is_found (data : list byte)
    (w w1 w2 : World) (u1 u2 : unit) :
  (forall m, SecureJoin m "/tmp/fuzz-root/fuzz" "state.json"
             = Ok "/tmp/fuzz-root/fuzz/state.json") ->
  (20 <= length data)%nat ->
  MkdirAll "/tmp/fuzz-root" w = (Ok u1, w1) ->
  MkdirAll "/tmp/fuzz-root/fuzz" w1 = (Ok u2, w2) ->
  fst (FuzzFactory data w) = 0 \/ fst (FuzzFactory data w) = 1.
Proof.
  intros Hjoin Hlen E1 E2. unfold FuzzFactory.
  destruct (Nat.ltb_spec (length data) 20); [lia|].
  rewrite E1, E2.
  destruct (GetString (NewConsumer data)) as [[ociVersion|?] c1]; [|left; reflexivity].
  destruct (GetString c1) as [[id|?] c2]; [|left; reflexivity].
  destruct (GetString c2) as [[status|?] c3]; [|left; reflexivity].
  destruct (GetInt c3) as [[pid|?] c4]; [|left; reflexivity].
  destruct (GetString c4) as [[bundle|?] c5]; [|left; reflexivity].
  destruct (_ || _ || _); [left; reflexivity|].
  destruct (json_Marshal _) as [b|?]; [|left; reflexivity].
  destruct (createFiles _ b _) as [[?|?] w3] eqn:Ec; [|left; reflexivity].
  destruct (createFiles_single_Ok _ _ _ _ _ Ec) as ((content & Hf) & _).
  rewrite fst_defer, Hjoin. right.
  unfold Open. cbn [fs record]. rewrite Hf.
  destruct (refuses SysOpen _); cbn [IsNotExist]; rewrite fst_defer;
    reflexivity.
Qed.

(** In a run that returns [1], the bytes written to the state record are
    the ones [json.Marshal] gave for the record whose fields are the
    five values extracted from the buffer, in the order version,
    identifier, status, pid and bundle, with the one annotation
    ["fuzz"]; version, identifier and bundle have at least 5 bytes.  The
    file is created, written and closed before the path is joined, right
    after the two directories are made. *)
Theorem FuzzFactory_writes_marshalled_record (data : list byte) (w : World) :
  fst (FuzzFactory data w) = 1 ->
  exists ociVersion c1 id c2 status c3 pid c4 bundle c5 b rest,
    GetString (NewConsumer data) = (Ok ociVersion, c1)
    /\ GetString c1 = (Ok id, c2)
    /\ GetString c2 = (Ok status, c3)
    /\ GetInt c3 = (Ok pid, c4)
    /\ GetString c4 = (Ok bundle, c5)
    /\ (5 <= len ociVersion)%Z
    /\ (5 <= len id)%Z
    /\ (5 <= len bundle)%Z
    /\ let fstate := {| OciVersion := ociVersion; Id := id; Status := status;
                        Pid := pid; Bundle := bundle;
                        Annotations := ["fuzz"] |} in
       json_Marshal fstate = Ok b
       /\ calls (snd (FuzzFactory data w)) =
          calls w ++ [OsMkdirAll "/tmp/fuzz-root";
                      OsMkdirAll "/tmp/fuzz-root/fuzz";
                      CallMarshal fstate;
                      OsOpenFile "/tmp/fuzz-root/fuzz/state.json";
                      OsWrite "/tmp/fuzz-root/fuzz/state.json" b;
                      OsClose (Some (mkOsFile "/tmp/fuzz-root/fuzz/state.json"));
                      CallSecureJoin "/tmp/fuzz-root/fuzz" "state.json"]
          ++ rest.
Proof.
  intros Hret.
  destruct (FuzzFactory_complete_chain data w Hret)
    as (u1 & w1 & u2 & w2 & ociVersion & c1 & id & c2 & status & c3 & pid
        & c4 & bundle & c5 & b & u3 & w3 & p
        & E1 & E2 & G1 & G2 & G3 & G4 & G5 & Hfilter & Hrest).
  cbv zeta in Hrest. destruct Hrest as (Ej & Ec & Es & Ho & ->).
  apply orb_false_iff in Hfilter as [Hfilter L3].
  apply orb_false_iff in Hfilter as [L1 L2].
  apply Z.ltb_ge in L1, L2, L3.
  exists ociVersion, c1, id, c2, status, c3, pid, c4, bundle, c5, b.
  eexists.
  cbv zeta. repeat (split; [assumption|]).
  destruct (createFiles_single_Ok _ _ _ _ _ Ec) as (_ & C3).
  cbn [record calls] in C3.
  destruct (MkdirAll_Ok _ _ _ _ E1) as (_ & _ & _ & C1 & _).
  destruct (MkdirAll_Ok _ _ _ _ E2) as (_ & _ & _ & C2 & _).
  rewrite calls_RemoveAll, calls_Close. cbn [invoke calls].
  rewrite calls_Open. cbn [record calls]. rewrite C3, C2, C1.
  rewrite <- !app_assoc. cbn [app]. reflexivity.
Qed.

End StateRecord.

(** [FuzzFactory] on [factoryInput]: the record is written and found
    again, and the run returns [1]. *)
Lemma FuzzFactory_written_record_is_found_witness :
  let run := @FuzzFactory (Reference.refRuntime Reference.noFaults)
               Reference.byteStreamConsumer Reference.factoryInput
               (Reference.emptyWorld Reference.noFaults) in
  fst run = 0 \/ fst run = 1.
Proof.
  intros run.
  apply (@FuzzFactory_written_record_is_found
           (Reference.refRuntime Reference.noFaults)
           Reference.byteStreamConsumer Reference.factoryInput
           (Reference.emptyWorld Reference.noFaults)
           (snd (MkdirAll "/tmp/fuzz-root"
                   (Reference.emptyWorld Reference.noFaults)))
           (snd (MkdirAll "/tmp/fuzz-root/fuzz"
                   (snd (MkdirAll "/tmp/fuzz-root"
                           (Reference.emptyWorld Reference.noFaults)))))
           tt tt).
  - intros m. reflexivity.
  - vm_compute. lia.
  - vm_compute. reflexivity.
  - vm_compute. reflexivity.
Defined.

(** The record [FuzzFactory] writes on [factoryInput]. *)
Lemma FuzzFactory_writes_marshalled_record_witness :
  let R := Reference.refRuntime Reference.noFaults in
  let C := Reference.byteStreamConsumer in
  let W := Reference.emptyWorld Reference.noFaults in
  let data := Reference.factoryInput in
  exists ociVersion c1 id c2 status c3 pid c4 bundle c5 b rest,
    @GetString C (@NewConsumer C data) = (Ok ociVersion, c1)
    /\ @GetString C c1 = (Ok id, c2)
    /\ @GetString C c2 = (Ok status, c3)
    /\ @GetInt C c3 = (Ok pid, c4)
    /\ @GetString C c4 = (Ok bundle, c5)
    /\ (5 <= len ociVersion)%Z
    /\ (5 <= len id)%Z
    /\ (5 <= len bundle)%Z
    /\ let fstate := {| OciVersion := ociVersion; Id := id; Status := status;
                        Pid := pid; Bundle := bundle;
                        Annotations := ["fuzz"] |} in
       @json_Marshal R fstate = Ok b
       /\ calls (snd (@FuzzFactory R C data W)) =
          calls W ++ [OsMkdirAll "/tmp/fuzz-root";
                      OsMkdirAll "/tmp/fuzz-root/fuzz";
                      CallMarshal fstate;
                      OsOpenFile "/tmp/fuzz-root/fuzz/state.json";
                      OsWrite "/tmp/fuzz-root/fuzz/state.json" b;
                      OsClose (Some (mkOsFile "/tmp/fuzz-root/fuzz/state.json"));
                      CallSecureJoin "/tmp/fuzz-root/fuzz" "state.json"]
          ++ rest.
Proof.
  apply (@FuzzFactory_writes_marshalled_record
           (Reference.refRuntime Reference.noFaults)
           Reference.byteStreamConsumer).
  vm_compute. reflexivity.
Defined.
